(** * The Kafka exporter charm (src/charm.py), embedded in Rocq

    The charm is a small event-driven reconciler: each handler resolves the
    Kafka endpoint from two sources (the [kafka-endpoint] option and the
    [kafka] relation), pushes a Pebble layer and reports a unit status.

    The embedding follows the Python source method by method.  The charm
    object's mutable fields and the calls it makes on its collaborators are
    threaded through a state-and-exception monad; the collaborators' answers
    (Pebble, the osm_libs checks) are inputs of the model. *)

From Stdlib Require Import String Ascii List Bool Arith ZArith Lia.
Import ListNotations.

Local Open Scope string_scope.
Local Open Scope list_scope.

(** ** Python string primitives used by the charm *)

Module Py.

(** [str.upper()] on the ASCII range: configuration values are taken to be
    ASCII text. *)
Definition upper_char (c : ascii) : ascii :=
  let n := nat_of_ascii c in
  if (Nat.leb 97 n && Nat.leb n 122)%bool then ascii_of_nat (n - 32) else c.

Fixpoint upper (s : string) : string :=
  match s with
  | EmptyString => EmptyString
  | String c r => String (upper_char c) (upper r)
  end.

(** [s.split(sep)] for a one-character separator: never returns an empty
    list, and an empty field is kept as the empty string. *)
Fixpoint split (sep : ascii) (s : string) : list string :=
  match s with
  | EmptyString => [EmptyString]
  | String c r =>
      if Ascii.eqb c sep then EmptyString :: split sep r
      else match split sep r with
           | h :: t => String c h :: t
           | [] => [String c EmptyString]
           end
  end.

(** Truth value of an optional string: [None] and [EmptyString] are falsy. *)
Definition truthy (o : option string) : bool :=
  match o with
  | Some (String _ _) => true
  | _ => false
  end.

(** [x in xs] on strings. *)
Definition str_in (x : string) (xs : list string) : bool :=
  existsb (String.eqb x) xs.

(** Formatting of an optional string inside an f-string. *)
Definition fmt (o : option string) : string :=
  match o with
  | Some s => s
  | None => "None"
  end.

(** Number of occurrences of a character; used in statements only. *)
Fixpoint count (sep : ascii) (s : string) : nat :=
  match s with
  | EmptyString => 0
  | String c r => ((if Ascii.eqb c sep then 1 else 0) + count sep r)%nat
  end.

End Py.

(** ** Data model *)

(** [ops.model] statuses, each with its message
    ([ActiveStatus()] has the empty message). *)
Inductive StatusBase : Type :=
| ActiveStatus (msg : string)
| BlockedStatus (msg : string)
| WaitingStatus (msg : string)
| MaintenanceStatus (msg : string).

(** Events delivered to the handlers, by class. *)
Inductive Event : Type :=
| PebbleReadyEvent
| ConfigChangedEvent
| UpdateStatusEvent
| RelationBrokenEvent
| KafkaAvailableEvent.

(** [type(event).__name__]; handlers with [event=None] see ["NoneType"]. *)
Definition type_name (event : option Event) : string :=
  match event with
  | None => "NoneType"
  | Some PebbleReadyEvent => "PebbleReadyEvent"
  | Some ConfigChangedEvent => "ConfigChangedEvent"
  | Some UpdateStatusEvent => "UpdateStatusEvent"
  | Some RelationBrokenEvent => "RelationBrokenEvent"
  | Some KafkaAvailableEvent => "KafkaAvailableEvent"
  end.

Definition PORT : Z := 9308%Z.

(** The dictionary built by [_pebble_layer], as records. *)
Record Service : Type := {
  svc_override : string;
  svc_summary : string;
  svc_command : string;
  svc_startup : string
}.

Record Check : Type := {
  chk_override : string;
  chk_level : string;
  chk_tcp_port : Z
}.

Record Layer : Type := {
  layer_summary : string;
  layer_description : string;
  layer_services : list (string * Service);
  layer_checks : list (string * Check)
}.

(** Modelled from the spec: the [CharmError] class of charms.osm_libs is not
    part of the sources.  It carries a message and a status; the unit tests
    fix the default status of [CharmError(message)] as
    [BlockedStatus(message)]. *)
Record CharmError : Type := {
  message : string;
  status : StatusBase
}.

Definition CharmError_new (msg : string) : CharmError :=
  {| message := msg; status := BlockedStatus msg |}.

(** The two exception classes the charm handles. *)
Inductive Exception : Type :=
| ECharm (error : CharmError)
| EChange (error : string).

(** Calls the charm makes on its collaborators, in the order made. *)
Inductive Effect : Type :=
| AddLayer (name : string) (layer : Layer) (combine : bool)
| Replan
| Stop (name : string)
| Sleep (seconds : nat)
| Defer (event : option Event)
| IngressUpdateConfig (service_hostname : option string).

(** ** The environment of one handler run *)

(** [self.model.config]. *)
Record Config : Type := {
  log_level : string;
  kafka_endpoint_option : option string;
  external_hostname : option string
}.

(** [self.kafka_client]: the two properties read from relation data. *)
Record KafkaRequires : Type := {
  host : option string;
  port : option string
}.

(** [self.container] and the osm_libs checks on it.  Every answer may depend
    on the calls made so far.  [replan_error] is the [ChangeError] raised by
    [replan()], if any; [container_ready_error] and [service_active_error]
    are the [CharmError] raised by [check_container_ready] and
    [check_service_active], if any. *)
Record Container : Type := {
  can_connect : list Effect -> bool;
  replan_error : list Effect -> option string;
  container_ready_error : list Effect -> option CharmError;
  service_active_error : list Effect -> option CharmError
}.

Record Self : Type := {
  config : Config;
  kafka_client : KafkaRequires;
  container : Container
}.

(** The charm's mutable fields and the trace of calls made. *)
Record Charm : Type := {
  kafka_endpoint : option string;
  unit_status : StatusBase;
  effects : list Effect
}.

(** ** State and exception monad *)

Inductive Outcome (A : Type) : Type :=
| Ok (a : A)
| Raise (e : Exception).
Arguments Ok {A} a.
Arguments Raise {A} e.

Definition M (A : Type) : Type := Charm -> Outcome A * Charm.

Definition ret {A} (a : A) : M A := fun w => (Ok a, w).

Definition bind {A B} (m : M A) (f : A -> M B) : M B :=
  fun w =>
    match m w with
    | (Ok a, w') => f a w'
    | (Raise e, w') => (Raise e, w')
    end.

Definition raise {A} (e : Exception) : M A := fun w => (Raise e, w).

Declare Scope charm_scope.
Delimit Scope charm_scope with charm.
Notation "x <- m ;; k" := (bind m (fun x => k))
  (at level 100, m at next level, right associativity) : charm_scope.
Notation "m ;; k" := (bind m (fun _ => k))
  (at level 100, right associativity) : charm_scope.
Local Open Scope charm_scope.

(** [try: body except CharmError as error: handler]. *)
Definition except_CharmError {A} (body : M A) (handler : CharmError -> M A) : M A :=
  fun w =>
    match body w with
    | (Raise (ECharm error), w') => handler error w'
    | r => r
    end.

(** [try: body except ChangeError as error: handler]. *)
Definition except_ChangeError {A} (body : M A) (handler : string -> M A) : M A :=
  fun w =>
    match body w with
    | (Raise (EChange error), w') => handler error w'
    | r => r
    end.

Definition set_unit_status (s : StatusBase) : M unit :=
  fun w => (Ok tt, {| kafka_endpoint := kafka_endpoint w;
                      unit_status := s;
                      effects := effects w |}).

Definition set_kafka_endpoint (e : option string) : M unit :=
  fun w => (Ok tt, {| kafka_endpoint := e;
                      unit_status := unit_status w;
                      effects := effects w |}).

Definition get_kafka_endpoint : M (option string) :=
  fun w => (Ok (kafka_endpoint w), w).

Definition emit (e : Effect) : M unit :=
  fun w => (Ok tt, {| kafka_endpoint := kafka_endpoint w;
                      unit_status := unit_status w;
                      effects := effects w ++ [e] |}).

(** An answer of a collaborator, given the calls made so far. *)
Definition ask {A} (oracle : list Effect -> A) : M A :=
  fun w => (Ok (oracle (effects w)), w).

(** ** The charm's methods *)

Definition pebble_service_name : string := "kafka-exporter".
Definition container_name : string := "kafka-exporter".

(** Messages of the [CharmError]s raised by the charm itself. *)
Definition invalid_log_level_msg : string :=
  "invalid value for log-level option".
Definition wrong_format_msg : string :=
  "Wrong kafka-endpoint format: value must be in the format <host>:<port>".
Definition conflicting_sources_msg : string :=
  "Kafka cannot added via relation and via config at the same time".
Definition no_endpoint_msg : string :=
  "Not kafka-endpoint added. Kafka endpoint needs to be added via relation or via config".

Definition log_levels : list string :=
  ["TRACE"; "DEBUG"; "INFO"; "WARN"; "ERROR"; "FATAL"].

Section Methods.

Variable self : Self.

(** *** Calls on the collaborators *)

Definition container_add_layer (name : string) (layer : Layer) (combine : bool) : M unit :=
  emit (AddLayer name layer combine).

(** [replan()] is the call whose failure is a [ChangeError]. *)
Definition container_replan : M unit :=
  failure <- ask (replan_error (container self)) ;;
  emit Replan ;;
  match failure with
  | Some error => raise (EChange error)
  | None => ret tt
  end.

Definition container_stop (name : string) : M unit := emit (Stop name).

Definition container_can_connect : M bool := ask (can_connect (container self)).

Definition time_sleep (seconds : nat) : M unit := emit (Sleep seconds).

Definition event_defer (event : option Event) : M unit := emit (Defer event).

Definition ingress_update_config (service_hostname : option string) : M unit :=
  emit (IngressUpdateConfig service_hostname).

(** The osm_libs checks are not part of the sources; their outcome is read
    from the environment. *)
Definition check_container_ready : M unit :=
  failure <- ask (container_ready_error (container self)) ;;
  match failure with
  | Some error => raise (ECharm error)
  | None => ret tt
  end.

Definition check_service_active : M unit :=
  failure <- ask (service_active_error (container self)) ;;
  match failure with
  | Some error => raise (ECharm error)
  | None => ret tt
  end.

(** *** [_pebble_layer] *)

Definition _pebble_layer (endpoint : option string) : Layer :=
  {| layer_summary := "kafka-exporter layer";
     layer_description := "pebble config layer for kafka-exporter";
     layer_services :=
       [ (pebble_service_name,
          {| svc_override := "replace";
             svc_summary := "kafka-exporter service";
             svc_command := ("bin/kafka_exporter --kafka.server=" ++ Py.fmt endpoint)%string;
             svc_startup := "enabled" |}) ];
     layer_checks :=
       [ ("online",
          {| chk_override := "replace";
             chk_level := "ready";
             chk_tcp_port := PORT |}) ] |}.

(** The property reads [self.kafka_endpoint] when it is evaluated. *)
Definition pebble_layer : M Layer :=
  endpoint <- get_kafka_endpoint ;;
  ret (_pebble_layer endpoint).

(** *** [_configure_service] and [_retry_configure_service]

    The two methods call each other; [retry] starts at 3 and only ever
    decreases, so it is a natural number and the recursion is on it.  The
    handler of [ChangeError] below is the body of
    [_retry_configure_service] (see [_retry_configure_service_eq]). *)
Fixpoint _configure_service (event : option Event) (retry : nat) : M unit :=
  match retry with
  | O => ret tt
  | S retry' =>
      except_ChangeError
        (connected <- container_can_connect ;;
         if connected then
           layer <- pebble_layer ;;
           container_add_layer "kafka-exporter" layer true ;;
           container_replan ;;
           set_unit_status (ActiveStatus EmptyString)
         else
           event_defer event ;;
           set_unit_status (WaitingStatus "waiting for Pebble API"))
        (fun error =>
           time_sleep 5 ;;
           _configure_service event retry')
  end.

Definition _retry_configure_service
    (event : option Event) (retry : nat) (error : string) : M unit :=
  time_sleep 5 ;;
  let retry := retry - 1 in
  _configure_service event retry.

(** *** Configuration *)

Definition _validate_config : M unit :=
  (if negb (Py.str_in (Py.upper (log_level (config self))) log_levels) then
     set_unit_status
       (BlockedStatus ("invalid log level: " ++ Py.upper (log_level (config self)))%string) ;;
     raise (ECharm (CharmError_new invalid_log_level_msg))
   else ret tt) ;;
  match kafka_endpoint_option (config self) with
  | Some (String c r as kafkaendpoint) =>
      if negb (Nat.eqb (List.length (Py.split ":"%char kafkaendpoint)) 2) then
        set_unit_status (BlockedStatus "Wrong kafka-endpoint format") ;;
        raise (ECharm (CharmError_new wrong_format_msg))
      else ret tt
  | _ => ret tt
  end.

Definition _get_kafka_config : M (option string) :=
  except_CharmError
    (_validate_config ;;
     ret (kafka_endpoint_option (config self)))
    (fun error => raise (ECharm (CharmError_new (message error)))).

Definition _get_kafka_relation (event : option Event) : option string :=
  if String.eqb (type_name event) "RelationBrokenEvent" then None
  else if Py.truthy (host (kafka_client self)) && Py.truthy (port (kafka_client self))
  then Some (Py.fmt (host (kafka_client self)) ++ ":" ++ Py.fmt (port (kafka_client self)))%string
  else None.

(** *** [_get_kafka_endpoint] *)

Definition _get_kafka_endpoint (event : option Event) : M string :=
  let relation := _get_kafka_relation event in
  configuration <- _get_kafka_config ;;
  match configuration with
  | Some (String _ _ as configuration) =>
      match relation with
      | Some _ => raise (ECharm (CharmError_new conflicting_sources_msg))
      | None => ret configuration
      end
  | _ =>
      match relation with
      | Some relation => ret relation
      | None => raise (ECharm (CharmError_new no_endpoint_msg))
      end
  end.

(** *** [_stop_container] and [_update_ingress_config] *)

Definition _stop_container : M unit :=
  except_CharmError
    (check_service_active ;;
     check_container_ready ;;
     container_stop container_name)
    (fun error =>
       let service_not_configured :=
         (pebble_service_name ++ " service not configured yet")%string in
       if negb (String.eqb (message error) service_not_configured) then
         container_stop container_name
       else ret tt).

Definition _update_ingress_config : M unit :=
  ingress_update_config (external_hostname (config self)).

(** *** Event handlers *)

Definition _on_kafka_exporter_pebble_ready (event : option Event) : M unit :=
  except_CharmError
    (endpoint <- _get_kafka_endpoint event ;;
     set_kafka_endpoint (Some endpoint) ;;
     layer <- pebble_layer ;;
     container_add_layer "kafka-exporter" layer true ;;
     container_replan ;;
     set_unit_status (ActiveStatus EmptyString))
    (fun error => set_unit_status (status error)).

Definition _on_config_changed (event : option Event) : M unit :=
  except_CharmError
    (endpoint <- _get_kafka_endpoint event ;;
     set_kafka_endpoint (Some endpoint) ;;
     _configure_service event 3 ;;
     _update_ingress_config)
    (fun error =>
       _stop_container ;;
       set_unit_status (status error)).

Definition _on_update_status (event : option Event) : M unit :=
  except_CharmError
    (endpoint <- _get_kafka_endpoint event ;;
     set_kafka_endpoint (Some endpoint) ;;
     check_container_ready ;;
     check_service_active ;;
     set_unit_status (ActiveStatus EmptyString))
    (fun error =>
       _stop_container ;;
       set_unit_status (status error)).

Definition _on_db_relation_broken (event : option Event) : M unit :=
  except_CharmError
    (endpoint <- _get_kafka_endpoint event ;;
     set_kafka_endpoint (Some endpoint) ;;
     _configure_service event 3)
    (fun error =>
       _stop_container ;;
       set_unit_status (status error)).

Definition _on_kafka_available (event : option Event) : M unit :=
  except_CharmError
    (endpoint <- _get_kafka_endpoint None ;;
     set_kafka_endpoint (Some endpoint) ;;
     check_container_ready ;;
     _configure_service event 3 ;;
     _on_update_status None)
    (fun error =>
       _stop_container ;;
       set_unit_status (status error)).

End Methods.

(** ** Observations on the trace of calls *)

Definition layers_of (e : Effect) : list Layer :=
  match e with AddLayer _ layer _ => [layer] | _ => [] end.
Definition sleeps_of (e : Effect) : list nat :=
  match e with Sleep n => [n] | _ => [] end.
Definition stops_of (e : Effect) : list string :=
  match e with Stop n => [n] | _ => [] end.
Definition defers_of (e : Effect) : list (option Event) :=
  match e with Defer ev => [ev] | _ => [] end.
Definition pushes_of (e : Effect) : list (option string) :=
  match e with IngressUpdateConfig h => [h] | _ => [] end.

(** Layers submitted, sleeps taken, services stopped, events deferred and
    hostnames pushed to the ingress, in order. *)
Definition layers_submitted (t : list Effect) : list Layer := flat_map layers_of t.
Definition sleeps (t : list Effect) : list nat := flat_map sleeps_of t.
Definition stops (t : list Effect) : list string := flat_map stops_of t.
Definition deferred (t : list Effect) : list (option Event) := flat_map defers_of t.
Definition ingress_pushes (t : list Effect) : list (option string) := flat_map pushes_of t.

(** ** Concrete environments

    Used to run the handlers on explicit inputs. *)

(** A container that answers the same at every call. *)
Definition steady_container (reachable : bool) (replan_failure : option string) : Container :=
  {| can_connect := fun _ => reachable;
     replan_error := fun _ => replan_failure;
     container_ready_error := fun _ => None;
     service_active_error := fun _ => None |}.

(** A unit with log level ["info"] and no external hostname. *)
Definition unit_with
    (endpoint host_ port_ : option string) (c : Container) : Self :=
  {| config := {| log_level := "info";
                  kafka_endpoint_option := endpoint;
                  external_hostname := None |};
     kafka_client := {| host := host_; port := port_ |};
     container := c |}.

(** The charm right after [__init__]. *)
Definition fresh_charm : Charm :=
  {| kafka_endpoint := None;
     unit_status := MaintenanceStatus EmptyString;
     effects := [] |}.

(** ** Predicates used in the statements *)

(** The log level passes the check of [_validate_config]. *)
Definition valid_log_level (self : Self) : bool :=
  Py.str_in (Py.upper (log_level (config self))) log_levels.

(** The relation has published both [host] and [port]. *)
Definition relation_data_present (self : Self) : bool :=
  Py.truthy (host (kafka_client self)) && Py.truthy (port (kafka_client self)).

(** Exactly one colon. *)
Definition one_colon (s : string) : Prop := Py.count ":" s = 1.

(** ** Shapes of the charm and of its trace used in the statements *)

(** The charm after [_validate_config] has set a status. *)
Definition with_status (s : StatusBase) (w : Charm) : Charm :=
  {| kafka_endpoint := kafka_endpoint w; unit_status := s; effects := effects w |}.

(** The charm after further calls [t], with status [s]. *)
Definition after (w : Charm) (s : StatusBase) (t : list Effect) : Charm :=
  {| kafka_endpoint := kafka_endpoint w; unit_status := s; effects := effects w ++ t |}.

(** One attempt of the apply step that reaches [replan()]. *)
Definition attempt (endpoint : option string) : list Effect :=
  [AddLayer "kafka-exporter" (_pebble_layer endpoint) true; Replan].

(** The calls made when every one of [retry] attempts fails. *)
Fixpoint failed_attempts (endpoint : option string) (retry : nat) : list Effect :=
  match retry with
  | O => []
  | S r => attempt endpoint ++ [Sleep 5] ++ failed_attempts endpoint r
  end.

(** The handlers that resolve the endpoint with the event they are given. *)
Definition event_handlers (self : Self) : list (option Event -> M unit) :=
  [ _on_kafka_exporter_pebble_ready self;
    _on_config_changed self;
    _on_update_status self;
    _on_db_relation_broken self ].

(** The charm once a handler has cached the resolved endpoint. *)
Definition resolved (endpoint : string) (w : Charm) : Charm :=
  {| kafka_endpoint := Some endpoint; unit_status := unit_status w; effects := effects w |}.

(** The five handlers, [_on_kafka_available] included. *)
Definition all_handlers (self : Self) : list (option Event -> M unit) :=
  event_handlers self ++ [_on_kafka_available self].

(** The history at which attempt number [k] (counted from 0) calls
    [replan()], after [k] failed attempts. *)
Definition replan_point (w : Charm) (k : nat) : list Effect :=
  effects w ++ failed_attempts (kafka_endpoint w) k
            ++ [AddLayer "kafka-exporter" (_pebble_layer (kafka_endpoint w)) true].

(** The first [CharmError] met by [_stop_container], which checks the
    service and then the container. *)
Definition stop_check_error (self : Self) (t : list Effect) : option CharmError :=
  match service_active_error (container self) t with
  | Some error => Some error
  | None => container_ready_error (container self) t
  end.

(** The calls [_stop_container] makes at history [t]. *)
Definition stop_calls (self : Self) (t : list Effect) : list Effect :=
  match stop_check_error self t with
  | Some error =>
      if String.eqb (message error) "kafka-exporter service not configured yet"
      then [] else [Stop "kafka-exporter"]
  | None => [Stop "kafka-exporter"]
  end.

(** The first [CharmError] met by [_on_update_status], which checks the
    container and then the service. *)
Definition update_status_check_error (self : Self) (t : list Effect) : option CharmError :=
  match container_ready_error (container self) t with
  | Some error => Some error
  | None => service_active_error (container self) t
  end.

(** The calls made between the charm [w] and a later charm [w']. *)
Definition calls_since (w w' : Charm) : list Effect :=
  skipn (List.length (effects w)) (effects w').

(** The same unit with another log level. *)
Definition with_log_level (level : string) (self : Self) : Self :=
  {| config := {| log_level := level;
                  kafka_endpoint_option := kafka_endpoint_option (config self);
                  external_hostname := external_hostname (config self) |};
     kafka_client := kafka_client self;
     container := container self |}.

(** A container on which [replan()] fails as long as fewer than [n] calls
    have been made, and succeeds afterwards. *)
Definition flaky_container (n : nat) : Container :=
  {| can_connect := fun _ => true;
     replan_error := fun t => if Nat.ltb (List.length t) n
                              then Some "cannot perform the following tasks" else None;
     container_ready_error := fun _ => None;
     service_active_error := fun _ => None |}.

(** ** Facts about the string primitives *)

Lemma split_length (sep : ascii) (s : string) :
  List.length (Py.split sep s) = S (Py.count sep s).
Proof.
  induction s as [|c r IH]; simpl; [reflexivity|].
  destruct (Ascii.eqb c sep); simpl.
  - now rewrite IH.
  - destruct (Py.split sep r) as [|h t]; simpl in *; [discriminate IH | exact IH].
Qed.

Lemma split_two_iff (s : string) :
  Nat.eqb (List.length (Py.split ":" s)) 2 = true <-> one_colon s.
Proof.
  unfold one_colon. rewrite split_length, Nat.eqb_eq. lia.
Qed.

Lemma split_join (sep : ascii) (s : string) :
  String.concat (String sep EmptyString) (Py.split sep s) = s.
Proof.
  induction s as [|c r IH]; simpl; [reflexivity|].
  destruct (Ascii.eqb_spec c sep) as [->|Hne].
  - cbn [String.concat]. destruct (Py.split sep r) as [|h t] eqn:E.
    + pose proof (split_length sep r) as L. rewrite E in L. discriminate L.
    + cbn [String.append]. now rewrite IH.
  - destruct (Py.split sep r) as [|h t] eqn:E.
    + pose proof (split_length sep r) as L. rewrite E in L. discriminate L.
    + destruct t as [|h' t']; cbn [String.concat String.append] in *; now rewrite IH.
Qed.

Lemma one_colon_nonempty (s : string) : one_colon s -> Py.truthy (Some s) = true.
Proof. destruct s; [discriminate | reflexivity]. Qed.

Lemma truthy_some (o : option string) :
  Py.truthy o = true -> exists c r, o = Some (String c r).
Proof. destruct o as [[|c r]|]; try discriminate; eauto. Qed.

Lemma truthy_false (o : option string) :
  Py.truthy o = false -> o = None \/ o = Some EmptyString.
Proof. destruct o as [[|c r]|]; try discriminate; auto. Qed.

(** ** Resolution of the endpoint *)

Ltac run :=
  cbv [bind ret raise ask emit set_unit_status set_kafka_endpoint
       get_kafka_endpoint except_CharmError except_ChangeError negb];
  cbn [kafka_endpoint unit_status effects message status].

Section Resolution.

Variable self : Self.

Lemma validate_absent (w : Charm) :
  valid_log_level self = true ->
  Py.truthy (kafka_endpoint_option (config self)) = false ->
  _validate_config self w = (Ok tt, w).
Proof.
  unfold valid_log_level, _validate_config. intros Hl Hs.
  rewrite Hl. destruct (truthy_false _ Hs) as [-> | ->]; reflexivity.
Qed.

Lemma validate_one_colon (w : Charm) (s : string) :
  valid_log_level self = true ->
  kafka_endpoint_option (config self) = Some s ->
  one_colon s ->
  _validate_config self w = (Ok tt, w).
Proof.
  unfold valid_log_level, _validate_config. intros Hl Hs Hc.
  rewrite Hl, Hs. destruct s as [|c r]; [reflexivity|].
  apply split_two_iff in Hc. rewrite Hc. reflexivity.
Qed.

Lemma validate_malformed (w : Charm) (s : string) :
  valid_log_level self = true ->
  kafka_endpoint_option (config self) = Some s ->
  s <> EmptyString ->
  ~ one_colon s ->
  _validate_config self w =
    (Raise (ECharm (CharmError_new wrong_format_msg)),
     with_status (BlockedStatus "Wrong kafka-endpoint format") w).
Proof.
  unfold valid_log_level, _validate_config. intros Hl Hs Hne Hc.
  rewrite Hl, Hs. destruct s as [|c r]; [congruence|].
  destruct (Nat.eqb (List.length (Py.split ":" (String c r))) 2) eqn:E.
  - apply split_two_iff in E. contradiction.
  - reflexivity.
Qed.

Lemma get_config_absent (w : Charm) :
  valid_log_level self = true ->
  Py.truthy (kafka_endpoint_option (config self)) = false ->
  _get_kafka_config self w = (Ok (kafka_endpoint_option (config self)), w).
Proof.
  intros Hl Hs. unfold _get_kafka_config. run.
  rewrite (validate_absent w Hl Hs). reflexivity.
Qed.

Lemma get_config_one_colon (w : Charm) (s : string) :
  valid_log_level self = true ->
  kafka_endpoint_option (config self) = Some s ->
  one_colon s ->
  _get_kafka_config self w = (Ok (Some s), w).
Proof.
  intros Hl Hs Hc. unfold _get_kafka_config. run.
  rewrite (validate_one_colon w s Hl Hs Hc), Hs. reflexivity.
Qed.

Lemma get_config_malformed (w : Charm) (s : string) :
  valid_log_level self = true ->
  kafka_endpoint_option (config self) = Some s ->
  s <> EmptyString ->
  ~ one_colon s ->
  _get_kafka_config self w =
    (Raise (ECharm (CharmError_new wrong_format_msg)),
     with_status (BlockedStatus "Wrong kafka-endpoint format") w).
Proof.
  intros Hl Hs Hne Hc. unfold _get_kafka_config. run.
  rewrite (validate_malformed w s Hl Hs Hne Hc). reflexivity.
Qed.

(** Whatever the configuration, a failure of [_validate_config] is a
    [CharmError] and leaves the trace and the cached endpoint alone. *)
Lemma validate_cases (w : Charm) :
  _validate_config self w = (Ok tt, w) \/
  exists error s,
    _validate_config self w = (Raise (ECharm error), with_status s w).
Proof.
  unfold _validate_config.
  destruct (Py.str_in _ log_levels).
  - destruct (kafka_endpoint_option (config self)) as [[|c r]|]; auto.
    destruct (Nat.eqb _ 2); run; [left; reflexivity | right].
    do 2 eexists; reflexivity.
  - right. run. do 2 eexists; reflexivity.
Qed.

Lemma get_config_cases (w : Charm) :
  _get_kafka_config self w = (Ok (kafka_endpoint_option (config self)), w) \/
  exists msg s,
    _get_kafka_config self w = (Raise (ECharm (CharmError_new msg)), with_status s w).
Proof.
  unfold _get_kafka_config. run.
  destruct (validate_cases w) as [E | (error & s & E)]; rewrite E; cbn; [now left | right].
  do 2 eexists; reflexivity.
Qed.

(** Resolution either returns an endpoint and changes nothing, or raises a
    [CharmError] built with the default (Blocked) status. *)
Lemma get_endpoint_cases (event : option Event) (w : Charm) :
  (exists endpoint, _get_kafka_endpoint self event w = (Ok endpoint, w)) \/
  (exists msg w',
     _get_kafka_endpoint self event w = (Raise (ECharm (CharmError_new msg)), w') /\
     kafka_endpoint w' = kafka_endpoint w /\ effects w' = effects w).
Proof.
  unfold _get_kafka_endpoint. run.
  destruct (get_config_cases w) as [E | (msg & s & E)]; rewrite E; cbn.
  - destruct (kafka_endpoint_option (config self)) as [[|c r]|];
      destruct (_get_kafka_relation self event); eauto 6.
  - right. exists msg, (with_status s w). auto.
Qed.

End Resolution.

(** ** The apply step and the stop of the workload *)

Section Apply.

Variable self : Self.

Lemma retry_configure_service_eq (event : option Event) (retry : nat) (error : string) :
  _retry_configure_service self event (S retry) error =
  (time_sleep 5 ;; _configure_service self event retry).
Proof. unfold _retry_configure_service. now rewrite Nat.sub_1_r. Qed.

Lemma configure_zero (event : option Event) (w : Charm) :
  _configure_service self event 0 w = (Ok tt, w).
Proof. reflexivity. Qed.

Lemma configure_unreachable (event : option Event) (retry : nat) (w : Charm) :
  can_connect (container self) (effects w) = false ->
  _configure_service self event (S retry) w =
    (Ok tt, after w (WaitingStatus "waiting for Pebble API") [Defer event]).
Proof.
  intros H. cbn [_configure_service].
  cbv [container_can_connect event_defer]. run. rewrite H. reflexivity.
Qed.

Lemma configure_applied (event : option Event) (retry : nat) (w : Charm) :
  can_connect (container self) (effects w) = true ->
  replan_error (container self)
    (effects w ++ [AddLayer "kafka-exporter" (_pebble_layer (kafka_endpoint w)) true]) = None ->
  _configure_service self event (S retry) w =
    (Ok tt, after w (ActiveStatus EmptyString) (attempt (kafka_endpoint w))).
Proof.
  intros Hc Hr. cbn [_configure_service].
  cbv [container_can_connect pebble_layer container_add_layer container_replan]. run.
  rewrite Hc. cbn [kafka_endpoint unit_status effects]. rewrite Hr.
  unfold after, attempt. cbn. now rewrite <- app_assoc.
Qed.

Lemma configure_failed (event : option Event) (retry : nat) (w : Charm) (error : string) :
  can_connect (container self) (effects w) = true ->
  replan_error (container self)
    (effects w ++ [AddLayer "kafka-exporter" (_pebble_layer (kafka_endpoint w)) true]) = Some error ->
  _configure_service self event (S retry) w =
    _configure_service self event retry
      (after w (unit_status w) (attempt (kafka_endpoint w) ++ [Sleep 5])).
Proof.
  intros Hc Hr. cbn [_configure_service].
  cbv [container_can_connect pebble_layer container_add_layer container_replan time_sleep].
  run. rewrite Hc. cbn [kafka_endpoint unit_status effects]. rewrite Hr.
  unfold after, attempt. cbn. now rewrite <- !app_assoc.
Qed.

Lemma configure_exhausted (event : option Event) (retry : nat) (w : Charm) :
  (forall t, can_connect (container self) t = true) ->
  (forall t, replan_error (container self) t <> None) ->
  _configure_service self event retry w =
    (Ok tt, after w (unit_status w) (failed_attempts (kafka_endpoint w) retry)).
Proof.
  intros Hc Hr. revert w. induction retry as [|r IH]; intros w.
  - cbn. unfold after. rewrite app_nil_r. now destruct w.
  - destruct (replan_error (container self)
      (effects w ++ [AddLayer "kafka-exporter" (_pebble_layer (kafka_endpoint w)) true]))
      as [error|] eqn:E; [| now apply Hr in E].
    rewrite (configure_failed event r w error (Hc _) E), IH.
    unfold after. cbn [kafka_endpoint unit_status effects failed_attempts attempt].
    now rewrite <- !app_assoc.
Qed.

(** The apply step never raises, never touches the cached endpoint, and
    makes at most [retry] attempts, each failed one followed by a sleep of
    5. *)
Lemma configure_total (event : option Event) (retry : nat) (w : Charm) :
  exists s t,
    _configure_service self event retry w = (Ok tt, after w s t) /\
    List.length (layers_submitted t) <= retry /\
    List.length (sleeps t) <= retry /\
    Forall (eq 5) (sleeps t) /\
    ingress_pushes t = [] /\ stops t = [].
Proof.
  revert w. induction retry as [|r IH]; intros w.
  - exists (unit_status w), []. cbn. unfold after. rewrite app_nil_r.
    destruct w; cbn; auto 10.
  - destruct (can_connect (container self) (effects w)) eqn:Hc.
    + destruct (replan_error (container self)
        (effects w ++ [AddLayer "kafka-exporter" (_pebble_layer (kafka_endpoint w)) true]))
        as [error|] eqn:E.
      * rewrite (configure_failed event r w error Hc E).
        destruct (IH (after w (unit_status w) (attempt (kafka_endpoint w) ++ [Sleep 5])))
          as (s & t & Eq & Hl & Hs & Hf & Hp & Hst).
        exists s, (attempt (kafka_endpoint w) ++ [Sleep 5] ++ t). rewrite Eq.
        unfold after. cbn [kafka_endpoint unit_status effects].
        rewrite <- !app_assoc. split; [reflexivity|].
        unfold layers_submitted, sleeps, ingress_pushes, stops in *. cbn.
        repeat split; auto; lia.
      * rewrite (configure_applied event r w Hc E).
        exists (ActiveStatus EmptyString), (attempt (kafka_endpoint w)). cbn.
        repeat split; auto; lia.
    + rewrite (configure_unreachable event r w Hc).
      exists (WaitingStatus "waiting for Pebble API"), [Defer event]. cbn.
      repeat split; auto; lia.
Qed.

(** [_stop_container] always returns; it stops the service at most once and
    leaves status and endpoint alone. *)
Lemma stop_container_total (w : Charm) :
  exists t,
    _stop_container self w = (Ok tt, after w (unit_status w) t) /\
    (t = [] \/ t = [Stop container_name]).
Proof.
  unfold _stop_container.
  cbv [check_service_active check_container_ready container_stop]. run.
  destruct (service_active_error (container self) (effects w)) as [e1|].
  - destruct (String.eqb (message e1) _).
    + exists []. unfold after. rewrite app_nil_r. destruct w; auto.
    + exists [Stop container_name]. auto.
  - destruct (container_ready_error (container self) (effects w)) as [e2|].
    + destruct (String.eqb (message e2) _).
      * exists []. unfold after. rewrite app_nil_r. destruct w; auto.
      * exists [Stop container_name]. auto.
    + exists [Stop container_name]. auto.
Qed.

End Apply.

(** ** The handlers at a failed resolution *)

Lemma except_bind_raise {A B : Type}
    (m : M A) (k : A -> M B) (h : CharmError -> M B)
    (w w1 : Charm) (error : CharmError) :
  m w = (Raise (ECharm error), w1) ->
  except_CharmError (bind m k) h w = h error w1.
Proof. intros E. unfold except_CharmError, bind. now rewrite E. Qed.

Lemma except_bind_ok {A B : Type}
    (m : M A) (k : A -> M B) (h : CharmError -> M B)
    (w w1 : Charm) (a : A) :
  m w = (Ok a, w1) ->
  except_CharmError (bind m k) h w = except_CharmError (k a) h w1.
Proof. intros E. unfold except_CharmError, bind. now rewrite E. Qed.

Section Handlers.

Variable self : Self.

Lemma stop_then_status (s : StatusBase) (w : Charm) :
  exists t,
    (_stop_container self ;; set_unit_status s) w = (Ok tt, after w s t) /\
    (t = [] \/ t = [Stop container_name]).
Proof.
  destruct (stop_container_total self w) as (t & E & Ht).
  exists t. split; [| exact Ht]. unfold bind. rewrite E. reflexivity.
Qed.

(** A failed resolution ends every handler in the status of the error,
    with no layer submitted. *)
Lemma handlers_report
    (event : option Event) (w w1 : Charm) (error : CharmError) :
  _get_kafka_endpoint self event w = (Raise (ECharm error), w1) ->
  forall h, In h (event_handlers self) ->
    exists t,
      h event w = (Ok tt, after w1 (status error) t) /\
      (t = [] \/ t = [Stop container_name]).
Proof.
  intros E h Hin. cbn in Hin.
  destruct Hin as [<- | [<- | [<- | [<- | []]]]].
  - exists []. split; [| now left].
    unfold _on_kafka_exporter_pebble_ready.
    rewrite (except_bind_raise _ _ _ w w1 error E).
    unfold set_unit_status, after. now rewrite app_nil_r.
  - unfold _on_config_changed. rewrite (except_bind_raise _ _ _ w w1 error E).
    apply stop_then_status.
  - unfold _on_update_status. rewrite (except_bind_raise _ _ _ w w1 error E).
    apply stop_then_status.
  - unfold _on_db_relation_broken. rewrite (except_bind_raise _ _ _ w w1 error E).
    apply stop_then_status.
Qed.

(** [_on_kafka_available] resolves with no event. *)
Lemma kafka_available_reports
    (event : option Event) (w w1 : Charm) (error : CharmError) :
  _get_kafka_endpoint self None w = (Raise (ECharm error), w1) ->
  exists t,
    _on_kafka_available self event w = (Ok tt, after w1 (status error) t) /\
    (t = [] \/ t = [Stop container_name]).
Proof.
  intros E. unfold _on_kafka_available.
  rewrite (except_bind_raise _ _ _ w w1 error E). apply stop_then_status.
Qed.

(** *** Resolution, case by case *)

Lemma relation_broken_absent :
  _get_kafka_relation self (Some RelationBrokenEvent) = None.
Proof. reflexivity. Qed.

Lemma relation_absent (event : option Event) :
  relation_data_present self = false ->
  _get_kafka_relation self event = None.
Proof.
  unfold _get_kafka_relation, relation_data_present. intros ->.
  now destruct (String.eqb _ _).
Qed.

Lemma relation_present (event : option Event) :
  relation_data_present self = true ->
  type_name event <> "RelationBrokenEvent" ->
  exists h p,
    host (kafka_client self) = Some h /\ port (kafka_client self) = Some p /\
    _get_kafka_relation self event = Some (h ++ ":" ++ p)%string.
Proof.
  unfold _get_kafka_relation, relation_data_present. intros Hp Hn.
  apply String.eqb_neq in Hn. rewrite Hn, Hp.
  apply andb_prop in Hp. destruct Hp as [Hh Hp].
  destruct (truthy_some _ Hh) as (c1 & r1 & ->).
  destruct (truthy_some _ Hp) as (c2 & r2 & ->).
  do 2 eexists. repeat split.
Qed.

Lemma resolve_static (event : option Event) (w : Charm) (s : string) :
  valid_log_level self = true ->
  kafka_endpoint_option (config self) = Some s ->
  one_colon s ->
  _get_kafka_relation self event = None ->
  _get_kafka_endpoint self event w = (Ok s, w).
Proof.
  intros Hl Hs Hc Hr. unfold _get_kafka_endpoint, bind.
  rewrite (get_config_one_colon self w s Hl Hs Hc), Hr.
  destruct s; [discriminate Hc | reflexivity].
Qed.

Lemma resolve_malformed (event : option Event) (w : Charm) (s : string) :
  valid_log_level self = true ->
  kafka_endpoint_option (config self) = Some s ->
  s <> EmptyString ->
  ~ one_colon s ->
  _get_kafka_endpoint self event w =
    (Raise (ECharm (CharmError_new wrong_format_msg)),
     with_status (BlockedStatus "Wrong kafka-endpoint format") w).
Proof.
  intros Hl Hs Hne Hc. unfold _get_kafka_endpoint, bind.
  now rewrite (get_config_malformed self w s Hl Hs Hne Hc).
Qed.

Lemma resolve_conflict (event : option Event) (w : Charm) (s r : string) :
  valid_log_level self = true ->
  kafka_endpoint_option (config self) = Some s ->
  one_colon s ->
  _get_kafka_relation self event = Some r ->
  _get_kafka_endpoint self event w =
    (Raise (ECharm (CharmError_new conflicting_sources_msg)), w).
Proof.
  intros Hl Hs Hc Hr. unfold _get_kafka_endpoint, bind.
  rewrite (get_config_one_colon self w s Hl Hs Hc), Hr.
  destruct s; [discriminate Hc | reflexivity].
Qed.

Lemma resolve_relation (event : option Event) (w : Charm) (r : string) :
  valid_log_level self = true ->
  Py.truthy (kafka_endpoint_option (config self)) = false ->
  _get_kafka_relation self event = Some r ->
  _get_kafka_endpoint self event w = (Ok r, w).
Proof.
  intros Hl Hs Hr. unfold _get_kafka_endpoint, bind.
  rewrite (get_config_absent self w Hl Hs), Hr.
  destruct (truthy_false _ Hs) as [-> | ->]; reflexivity.
Qed.

Lemma resolve_nothing (event : option Event) (w : Charm) :
  valid_log_level self = true ->
  Py.truthy (kafka_endpoint_option (config self)) = false ->
  _get_kafka_relation self event = None ->
  _get_kafka_endpoint self event w =
    (Raise (ECharm (CharmError_new no_endpoint_msg)), w).
Proof.
  intros Hl Hs Hr. unfold _get_kafka_endpoint, bind.
  rewrite (get_config_absent self w Hl Hs), Hr.
  destruct (truthy_false _ Hs) as [-> | ->]; reflexivity.
Qed.

(** With no source at all resolution fails whatever the log level is. *)
Lemma resolve_nothing_fails (event : option Event) (w : Charm) :
  Py.truthy (kafka_endpoint_option (config self)) = false ->
  _get_kafka_relation self event = None ->
  exists msg w1,
    _get_kafka_endpoint self event w = (Raise (ECharm (CharmError_new msg)), w1) /\
    effects w1 = effects w /\ kafka_endpoint w1 = kafka_endpoint w.
Proof.
  intros Hs Hr. unfold _get_kafka_endpoint, bind. rewrite Hr.
  destruct (get_config_cases self w) as [E | (msg & s & E)]; rewrite E.
  - exists no_endpoint_msg, w.
    destruct (truthy_false _ Hs) as [-> | ->]; auto.
  - exists msg, (with_status s w). auto.
Qed.

End Handlers.

(** ** The handlers after a successful resolution *)

Lemma flat_map_snoc {A B : Type} (f : A -> list B) (l : list A) (a : A) :
  flat_map f (l ++ [a]) = flat_map f l ++ f a.
Proof. rewrite flat_map_app. cbn. now rewrite app_nil_r. Qed.

Section Success.

Variable self : Self.

Lemma resolution_ok_unchanged (event : option Event) (w : Charm) (endpoint : string) :
  fst (_get_kafka_endpoint self event w) = Ok endpoint ->
  _get_kafka_endpoint self event w = (Ok endpoint, w).
Proof.
  intros H. destruct (get_endpoint_cases self event w) as [(e & E) | (m & w' & E & _)];
    rewrite E in *; cbn in H; congruence.
Qed.

Lemma update_ingress_config_eq (w : Charm) :
  _update_ingress_config self w =
    (Ok tt, after w (unit_status w) [IngressUpdateConfig (external_hostname (config self))]).
Proof. reflexivity. Qed.

Lemma config_changed_resolved (event : option Event) (w : Charm) (endpoint : string) :
  _get_kafka_endpoint self event w = (Ok endpoint, w) ->
  exists s t,
    _configure_service self event 3 (resolved endpoint w) =
      (Ok tt, after (resolved endpoint w) s t) /\
    _on_config_changed self event w =
      (Ok tt, after (resolved endpoint w) s
                (t ++ [IngressUpdateConfig (external_hostname (config self))])) /\
    ingress_pushes t = [].
Proof.
  intros E.
  destruct (configure_total self event 3 (resolved endpoint w))
    as (s & t & Eq & _ & _ & _ & Hp & _).
  exists s, t. split; [exact Eq|]. split; [| exact Hp].
  unfold _on_config_changed. rewrite (except_bind_ok _ _ _ w w endpoint E).
  unfold except_CharmError, bind, set_kafka_endpoint. fold (resolved endpoint w).
  rewrite Eq. unfold _update_ingress_config, ingress_update_config, emit, after. cbn.
  now rewrite app_assoc.
Qed.

Lemma relation_broken_resolved (event : option Event) (w : Charm) (endpoint : string) :
  _get_kafka_endpoint self event w = (Ok endpoint, w) ->
  _on_db_relation_broken self event w =
    _configure_service self event 3 (resolved endpoint w).
Proof.
  intros E.
  destruct (configure_total self event 3 (resolved endpoint w)) as (s & t & Eq & _).
  unfold _on_db_relation_broken. rewrite (except_bind_ok _ _ _ w w endpoint E).
  unfold except_CharmError, bind, set_kafka_endpoint. fold (resolved endpoint w).
  now rewrite Eq.
Qed.

End Success.

(** ** Claims *)

(** C1 (as amended).  In the apply step, when every submission fails with a
    [ChangeError] while Pebble stays reachable, [_configure_service] makes
    exactly 3 attempts (the retry counter goes 3, 2, 1, 0), sleeps 5 after
    each failed attempt, and then gives up silently: it returns normally,
    raises nothing, and leaves the unit status as it was. *)
Theorem C1_retry_budget_exhausted
    (self : Self) (event : option Event) (w : Charm)
    (reachable : forall t, can_connect (container self) t = true)
    (failing : forall t, replan_error (container self) t <> None) :
  let final := snd (_configure_service self event 3 w) in
  fst (_configure_service self event 3 w) = Ok tt /\
  unit_status final = unit_status w /\
  effects final =
    effects w ++ attempt (kafka_endpoint w) ++ [Sleep 5]
              ++ attempt (kafka_endpoint w) ++ [Sleep 5]
              ++ attempt (kafka_endpoint w) ++ [Sleep 5] /\
  sleeps (effects final) = sleeps (effects w) ++ [5; 5; 5] /\
  layers_submitted (effects final) =
    layers_submitted (effects w) ++ repeat (_pebble_layer (kafka_endpoint w)) 3.
Proof.
  cbv zeta. rewrite (configure_exhausted self event 3 w reachable failing).
  cbn [fst snd after unit_status effects failed_attempts].
  split; [reflexivity|]. split; [reflexivity|]. split; [reflexivity|]. split.
  - unfold sleeps. rewrite flat_map_app. reflexivity.
  - unfold layers_submitted. rewrite flat_map_app. reflexivity.
Qed.

Lemma C1_retry_budget_exhausted_witness :
  let self := unit_with (Some "kafka:9092") None None
                (steady_container true (Some "cannot perform the following tasks")) in
  let final := snd (_configure_service self (Some ConfigChangedEvent) 3 fresh_charm) in
  fst (_configure_service self (Some ConfigChangedEvent) 3 fresh_charm) = Ok tt /\
  unit_status final = MaintenanceStatus EmptyString /\
  sleeps (effects final) = [5; 5; 5].
Proof.
  cbv zeta.
  destruct (C1_retry_budget_exhausted
    (unit_with (Some "kafka:9092") None None
       (steady_container true (Some "cannot perform the following tasks")))
    (Some ConfigChangedEvent) fresh_charm) as (H1 & H2 & _ & H4 & _).
  - intros t. reflexivity.
  - intros t H. discriminate H.
  - repeat split; assumption.
Defined.

(** C1, counterexample.  With a valid static endpoint and a [replan()] that
    always fails, [_on_config_changed] uses up the retry budget of the apply
    step and then returns normally: no error reaches the handler and the
    status is still the initial one, not [Blocked] with the error. *)
Lemma C1_exhaustion_is_silent :
  let self := unit_with (Some "kafka:9092") None None
                (steady_container true (Some "cannot perform the following tasks")) in
  let outcome := _on_config_changed self (Some ConfigChangedEvent) fresh_charm in
  sleeps (effects (snd outcome)) = [5; 5; 5] /\
  ~ (fst outcome = Raise (EChange "cannot perform the following tasks") \/
     unit_status (snd outcome) = BlockedStatus "cannot perform the following tasks").
Proof.
  cbv zeta. split; [reflexivity|]. intros [H | H]; vm_compute in H; discriminate H.
Qed.

(** C2 (as amended).  On a configuration-changed event the external hostname
    is pushed to the ingress collaborator exactly when endpoint resolution
    succeeded, as the last call of the handler; when resolution failed no
    push is made.  The push itself leaves the unit status as the apply step
    set it. *)
Theorem C2_ingress_push_follows_resolution
    (self : Self) (event : option Event) (w : Charm) :
  let final := snd (_on_config_changed self event w) in
  (forall w0,
     _update_ingress_config self w0 =
       (Ok tt, after w0 (unit_status w0)
                 [IngressUpdateConfig (external_hostname (config self))])) /\
  match fst (_get_kafka_endpoint self event w) with
  | Ok endpoint =>
      ingress_pushes (effects final) =
        ingress_pushes (effects w) ++ [external_hostname (config self)] /\
      unit_status final =
        unit_status (snd (_configure_service self event 3 (resolved endpoint w)))
  | Raise _ =>
      ingress_pushes (effects final) = ingress_pushes (effects w)
  end.
Proof.
  cbv zeta. split; [intros w0; apply update_ingress_config_eq|].
  destruct (get_endpoint_cases self event w) as [(endpoint & E) | (msg & w1 & E & _ & He)].
  - rewrite E. cbn [fst].
    destruct (config_changed_resolved self event w endpoint E) as (s & t & Ec & Eh & Hp).
    rewrite Eh, Ec. cbn [snd after effects unit_status resolved].
    split; [| reflexivity].
    unfold ingress_pushes in *. rewrite !flat_map_app, Hp. reflexivity.
  - rewrite E. cbn [fst].
    assert (Hin : In (_on_config_changed self) (event_handlers self))
      by (cbn; auto).
    destruct (handlers_report self event w w1 _ E _ Hin) as (t & Eh & Ht).
    rewrite Eh. cbn [snd after effects]. rewrite He.
    unfold ingress_pushes. rewrite flat_map_app.
    destruct Ht as [-> | ->]; cbn; now rewrite app_nil_r.
Qed.

(** C2, counterexample.  A configuration-changed event with no endpoint
    configured (resolution fails with the no-endpoint error): the handler
    stops the workload and reports [Blocked], and nothing is pushed to the
    ingress collaborator. *)
Lemma C2_no_push_when_resolution_fails :
  let self := {| config := {| log_level := "info";
                              kafka_endpoint_option := None;
                              external_hostname := Some "exporter.example.com" |};
                 kafka_client := {| host := None; port := None |};
                 container := steady_container true None |} in
  let outcome := _on_config_changed self (Some ConfigChangedEvent) fresh_charm in
  fst (_get_kafka_endpoint self (Some ConfigChangedEvent) fresh_charm) =
    Raise (ECharm (CharmError_new no_endpoint_msg)) /\
  effects (snd outcome) = [Stop "kafka-exporter"] /\
  ingress_pushes (effects (snd outcome)) = [].
Proof. cbv zeta. repeat split. Qed.

(** C3, the code at the failing input.  A pebble-ready event with no
    endpoint configured while the service is active: the handler reports
    [Blocked] but makes no call at all, so the workload is not stopped; the
    configuration-changed handler stops it on the same input.  And a
    [ChangeError] of [replan()] leaves the pebble-ready handler unhandled. *)
Example C3_pebble_ready_does_not_stop :
  let idle := unit_with None None None (steady_container true None) in
  let failing := unit_with (Some "kafka:9092") None None
                   (steady_container true (Some "cannot perform the following tasks")) in
  _on_kafka_exporter_pebble_ready idle (Some PebbleReadyEvent) fresh_charm =
    (Ok tt, {| kafka_endpoint := None;
               unit_status := BlockedStatus no_endpoint_msg;
               effects := [] |}) /\
  _on_config_changed idle (Some ConfigChangedEvent) fresh_charm =
    (Ok tt, {| kafka_endpoint := None;
               unit_status := BlockedStatus no_endpoint_msg;
               effects := [Stop "kafka-exporter"] |}) /\
  fst (_on_kafka_exporter_pebble_ready failing (Some PebbleReadyEvent) fresh_charm) =
    Raise (EChange "cannot perform the following tasks").
Proof. cbv zeta. repeat split. Qed.

(** C4 (as amended).  For a non-empty static endpoint string, with a valid
    log level and no relation endpoint, resolution succeeds and yields that
    very string if and only if the string contains exactly one colon, that
    is, splits into exactly two colon-separated parts, either of which may
    be empty; with zero or two-or-more colons it fails with the wrong-format
    error. *)
Theorem C4_static_endpoint_needs_one_colon
    (self : Self) (event : option Event) (w : Charm) (s : string)
    (level : valid_log_level self = true)
    (static : kafka_endpoint_option (config self) = Some s)
    (nonempty : s <> EmptyString)
    (no_relation : _get_kafka_relation self event = None) :
  (one_colon s <-> exists h p, Py.split ":" s = [h; p] /\ s = (h ++ ":" ++ p)%string) /\
  (one_colon s <-> _get_kafka_endpoint self event w = (Ok s, w)) /\
  (~ one_colon s <->
     _get_kafka_endpoint self event w =
       (Raise (ECharm (CharmError_new wrong_format_msg)),
        with_status (BlockedStatus "Wrong kafka-endpoint format") w)).
Proof.
  assert (Hdec : one_colon s \/ ~ one_colon s).
  { unfold one_colon. destruct (Nat.eq_dec (Py.count ":" s) 1); auto. }
  split; [| split].
  - split.
    + intros Hc. pose proof (split_length ":" s) as L. rewrite Hc in L.
      pose proof (split_join ":" s) as J.
      destruct (Py.split ":" s) as [|h [|p [|q t]]]; try discriminate L.
      exists h, p. split; [reflexivity|]. now rewrite <- J.
    + intros (h & p & E & _). unfold one_colon.
      pose proof (split_length ":" s) as L. rewrite E in L. cbn in L. lia.
  - split.
    + intros Hc. now apply resolve_static.
    + intros E. destruct Hdec as [Hc | Hn]; [exact Hc|].
      rewrite (resolve_malformed self event w s level static nonempty Hn) in E.
      discriminate E.
  - split.
    + intros Hn. now apply (resolve_malformed self event w s).
    + intros E Hc.
      rewrite (resolve_static self event w s level static Hc no_relation) in E.
      discriminate E.
Qed.

Lemma C4_static_endpoint_needs_one_colon_witness :
  _get_kafka_endpoint
    (unit_with (Some "kafka:9092") None None (steady_container true None))
    (Some ConfigChangedEvent) fresh_charm = (Ok "kafka:9092", fresh_charm).
Proof.
  apply (C4_static_endpoint_needs_one_colon
           (unit_with (Some "kafka:9092") None None (steady_container true None))
           (Some ConfigChangedEvent) fresh_charm "kafka:9092").
  - reflexivity.
  - reflexivity.
  - discriminate.
  - reflexivity.
  - reflexivity.
Defined.

(** C4, counterexample.  The static endpoint [":9092"] has an empty host
    part, yet resolution succeeds and yields it; likewise ["kafka:"] and
    [":"]. *)
Lemma C4_empty_part_is_accepted :
  let resolve s :=
    _get_kafka_endpoint (unit_with (Some s) None None (steady_container true None))
      (Some ConfigChangedEvent) fresh_charm in
  Py.split ":" ":9092" = [EmptyString; "9092"] /\
  resolve ":9092" = (Ok ":9092", fresh_charm) /\
  resolve "kafka:" = (Ok "kafka:", fresh_charm) /\
  resolve ":" = (Ok ":", fresh_charm) /\
  fst (resolve ":9092") <> Raise (ECharm (CharmError_new wrong_format_msg)).
Proof. cbv zeta. repeat split. discriminate. Qed.

(** A resolution that fails alike with and without the event ends every
    handler in [Blocked] with the message, without any layer submitted. *)
Lemma all_handlers_blocked
    (self : Self) (event : option Event) (w : Charm) (msg : string) :
  _get_kafka_endpoint self event w = (Raise (ECharm (CharmError_new msg)), w) ->
  _get_kafka_endpoint self None w = (Raise (ECharm (CharmError_new msg)), w) ->
  forall h, In h (all_handlers self) ->
    exists w',
      h event w = (Ok tt, w') /\
      unit_status w' = BlockedStatus msg /\
      layers_submitted (effects w') = layers_submitted (effects w).
Proof.
  intros E E0 h Hin. unfold all_handlers in Hin. apply in_app_or in Hin.
  assert (Hfin : forall t, t = [] \/ t = [Stop container_name] ->
            layers_submitted (effects w ++ t) = layers_submitted (effects w)).
  { intros t [-> | ->]; unfold layers_submitted; rewrite flat_map_app; cbn;
      now rewrite app_nil_r. }
  destruct Hin as [Hin | [<- | []]].
  - destruct (handlers_report self event w w _ E h Hin) as (t & Eh & Ht).
    eexists. split; [exact Eh|]. split; [reflexivity|]. now apply Hfin.
  - destruct (kafka_available_reports self event w w _ E0) as (t & Eh & Ht).
    eexists. split; [exact Eh|]. split; [reflexivity|]. now apply Hfin.
Qed.

(** C5.  Whenever a well-formed static endpoint and the relation endpoint
    are both present (with a valid log level, on an event other than
    relation-broken), resolution fails with the conflicting-sources error
    and every handler leaves the unit [Blocked] with the message
    "Kafka cannot added via relation and via config at the same time".
    Resolution reads the current configuration and relation data only, so
    the order in which the two were set plays no part. *)
Theorem C5_conflicting_sources
    (self : Self) (event : option Event) (w : Charm) (s : string)
    (level : valid_log_level self = true)
    (static : kafka_endpoint_option (config self) = Some s)
    (well_formed : one_colon s)
    (relation : relation_data_present self = true)
    (not_broken : type_name event <> "RelationBrokenEvent") :
  _get_kafka_endpoint self event w =
    (Raise (ECharm (CharmError_new conflicting_sources_msg)), w) /\
  forall h, In h (all_handlers self) ->
    exists w',
      h event w = (Ok tt, w') /\
      unit_status w' =
        BlockedStatus "Kafka cannot added via relation and via config at the same time" /\
      layers_submitted (effects w') = layers_submitted (effects w).
Proof.
  destruct (relation_present self event relation not_broken) as (hh & pp & _ & _ & Er).
  destruct (relation_present self None relation) as (hh0 & pp0 & _ & _ & Er0);
    [discriminate|].
  pose proof (resolve_conflict self event w s _ level static well_formed Er) as E.
  pose proof (resolve_conflict self None w s _ level static well_formed Er0) as E0.
  split; [exact E|]. now apply all_handlers_blocked.
Qed.

Lemma C5_conflicting_sources_witness :
  unit_status
    (snd (_on_config_changed
            (unit_with (Some "kafka:9092") (Some "kafka") (Some "9092")
               (steady_container true None))
            (Some ConfigChangedEvent) fresh_charm)) =
  BlockedStatus "Kafka cannot added via relation and via config at the same time".
Proof.
  destruct (C5_conflicting_sources
              (unit_with (Some "kafka:9092") (Some "kafka") (Some "9092")
                 (steady_container true None))
              (Some ConfigChangedEvent) fresh_charm "kafka:9092")
    as (_ & H).
  - reflexivity.
  - reflexivity.
  - reflexivity.
  - reflexivity.
  - discriminate.
  - destruct (H (_on_config_changed
                   (unit_with (Some "kafka:9092") (Some "kafka") (Some "9092")
                      (steady_container true None)))) as (w' & E & Hs & _).
    + cbn. auto.
    + rewrite E. exact Hs.
Defined.

(** C6.  Whenever neither the static endpoint nor the relation endpoint is
    present (the option unset or empty, the relation data incomplete; valid
    log level), resolution fails with the no-endpoint error and every
    handler leaves the unit [Blocked] with the message "Not kafka-endpoint
    added. Kafka endpoint needs to be added via relation or via config". *)
Theorem C6_no_endpoint
    (self : Self) (event : option Event) (w : Charm)
    (level : valid_log_level self = true)
    (no_static : Py.truthy (kafka_endpoint_option (config self)) = false)
    (no_relation : relation_data_present self = false) :
  _get_kafka_endpoint self event w =
    (Raise (ECharm (CharmError_new no_endpoint_msg)), w) /\
  forall h, In h (all_handlers self) ->
    exists w',
      h event w = (Ok tt, w') /\
      unit_status w' =
        BlockedStatus
          "Not kafka-endpoint added. Kafka endpoint needs to be added via relation or via config" /\
      layers_submitted (effects w') = layers_submitted (effects w).
Proof.
  pose proof (resolve_nothing self event w level no_static
                (relation_absent self event no_relation)) as E.
  pose proof (resolve_nothing self None w level no_static
                (relation_absent self None no_relation)) as E0.
  split; [exact E|]. now apply all_handlers_blocked.
Qed.

Lemma C6_no_endpoint_witness :
  unit_status
    (snd (_on_update_status
            (unit_with None None None (steady_container true None))
            (Some UpdateStatusEvent) fresh_charm)) =
  BlockedStatus
    "Not kafka-endpoint added. Kafka endpoint needs to be added via relation or via config".
Proof.
  destruct (C6_no_endpoint
              (unit_with None None None (steady_container true None))
              (Some UpdateStatusEvent) fresh_charm)
    as (_ & H).
  - reflexivity.
  - reflexivity.
  - reflexivity.
  - destruct (H (_on_update_status
                   (unit_with None None None (steady_container true None))))
      as (w' & E & Hs & _).
    + cbn. auto.
    + rewrite E. exact Hs.
Defined.

(** A log level outside the accepted set fails resolution before anything
    else is looked at. *)
Lemma resolve_invalid_level (self : Self) (event : option Event) (w : Charm) :
  valid_log_level self = false ->
  exists s,
    _get_kafka_endpoint self event w =
      (Raise (ECharm (CharmError_new invalid_log_level_msg)), with_status s w).
Proof.
  unfold valid_log_level. intros Hl.
  unfold _get_kafka_endpoint, _get_kafka_config, _validate_config.
  rewrite Hl. eexists. reflexivity.
Qed.

(** C7.  On a relation-broken event the relation endpoint is treated as
    absent whatever the relation data still holds; if the static endpoint is
    absent too, the relation-broken handler returns with the unit [Blocked]
    (with the no-endpoint message when the log level is valid) and submits
    no layer. *)
Theorem C7_relation_broken_discards_relation
    (self : Self) (w : Charm)
    (no_static : Py.truthy (kafka_endpoint_option (config self)) = false) :
  _get_kafka_relation self (Some RelationBrokenEvent) = None /\
  exists w',
    _on_db_relation_broken self (Some RelationBrokenEvent) w = (Ok tt, w') /\
    unit_status w' =
      BlockedStatus (if valid_log_level self then no_endpoint_msg
                     else invalid_log_level_msg) /\
    layers_submitted (effects w') = layers_submitted (effects w).
Proof.
  split; [reflexivity|].
  assert (Hin : In (_on_db_relation_broken self) (event_handlers self))
    by (cbn; auto).
  assert (Hfin : forall t, t = [] \/ t = [Stop container_name] ->
            layers_submitted (effects w ++ t) = layers_submitted (effects w)).
  { intros t [-> | ->]; unfold layers_submitted; rewrite flat_map_app; cbn;
      now rewrite app_nil_r. }
  destruct (valid_log_level self) eqn:Hl.
  - pose proof (resolve_nothing self (Some RelationBrokenEvent) w Hl no_static
                  (relation_broken_absent self)) as E.
    destruct (handlers_report self _ w w _ E _ Hin) as (t & Eh & Ht).
    eexists. split; [exact Eh|]. split; [reflexivity|]. now apply Hfin.
  - destruct (resolve_invalid_level self (Some RelationBrokenEvent) w Hl) as (s & E).
    destruct (handlers_report self _ w _ _ E _ Hin) as (t & Eh & Ht).
    eexists. split; [exact Eh|]. split; [reflexivity|].
    cbn [after with_status effects]. now apply Hfin.
Qed.

Lemma C7_relation_broken_discards_relation_witness :
  let self := unit_with None (Some "kafka") (Some "9092") (steady_container true None) in
  _get_kafka_relation self (Some ConfigChangedEvent) = Some "kafka:9092" /\
  _get_kafka_relation self (Some RelationBrokenEvent) = None /\
  unit_status (snd (_on_db_relation_broken self (Some RelationBrokenEvent) fresh_charm)) =
    BlockedStatus no_endpoint_msg.
Proof.
  cbv zeta. split; [reflexivity|].
  destruct (C7_relation_broken_discards_relation
              (unit_with None (Some "kafka") (Some "9092") (steady_container true None))
              fresh_charm)
    as (Hr & w' & E & Hs & _).
  - reflexivity.
  - split; [exact Hr|]. rewrite E. exact Hs.
Defined.

(** C8.  Whenever endpoint resolution succeeds but Pebble cannot be reached,
    the apply step sets the status to [Waiting], defers the event and
    submits no layer; so do the configuration-changed and relation-broken
    handlers, which run it. *)
Theorem C8_unreachable_waits_and_defers
    (self : Self) (event : option Event) (w : Charm) (endpoint : string)
    (resolves : fst (_get_kafka_endpoint self event w) = Ok endpoint)
    (unreachable : can_connect (container self) (effects w) = false) :
  let waiting := WaitingStatus "waiting for Pebble API" in
  _configure_service self event 3 (resolved endpoint w) =
    (Ok tt, after (resolved endpoint w) waiting [Defer event]) /\
  _on_config_changed self event w =
    (Ok tt, after (resolved endpoint w) waiting
              [Defer event; IngressUpdateConfig (external_hostname (config self))]) /\
  _on_db_relation_broken self event w =
    (Ok tt, after (resolved endpoint w) waiting [Defer event]) /\
  layers_submitted (effects (snd (_on_config_changed self event w))) =
    layers_submitted (effects w) /\
  deferred (effects (snd (_on_config_changed self event w))) =
    deferred (effects w) ++ [event].
Proof.
  cbv zeta. apply resolution_ok_unchanged in resolves.
  pose proof (configure_unreachable self event 2 (resolved endpoint w) unreachable) as Ec.
  destruct (config_changed_resolved self event w endpoint resolves)
    as (s & t & Ec' & Eh & _).
  rewrite Ec in Ec'. injection Ec' as Hs Ht. apply app_inv_head in Ht. subst s t.
  split; [exact Ec|]. split; [exact Eh|].
  split; [rewrite (relation_broken_resolved self event w endpoint resolves); exact Ec|].
  rewrite Eh. cbn [snd after effects resolved].
  unfold layers_submitted, deferred. rewrite !flat_map_app. cbn.
  now rewrite app_nil_r.
Qed.

Lemma C8_unreachable_waits_and_defers_witness :
  _on_config_changed
    (unit_with (Some "kafka:9092") None None (steady_container false None))
    (Some ConfigChangedEvent) fresh_charm =
  (Ok tt, {| kafka_endpoint := Some "kafka:9092";
             unit_status := WaitingStatus "waiting for Pebble API";
             effects := [Defer (Some ConfigChangedEvent); IngressUpdateConfig None] |}).
Proof.
  destruct (C8_unreachable_waits_and_defers
              (unit_with (Some "kafka:9092") None None (steady_container false None))
              (Some ConfigChangedEvent) fresh_charm "kafka:9092")
    as (_ & H & _).
  - reflexivity.
  - reflexivity.
  - exact H.
Defined.

(** If [replan()] fails [k] times and then succeeds within the budget, the
    apply step ends [Active] after [k] sleeps. *)
Lemma configure_eventually
    (self : Self) (event : option Event) (k retry : nat) (w : Charm) :
  k < retry ->
  (forall t, can_connect (container self) t = true) ->
  (forall j, j < k -> replan_error (container self) (replan_point w j) <> None) ->
  replan_error (container self) (replan_point w k) = None ->
  _configure_service self event retry w =
    (Ok tt, after w (ActiveStatus EmptyString)
              (failed_attempts (kafka_endpoint w) k ++ attempt (kafka_endpoint w))).
Proof.
  revert retry w. induction k as [|k IH]; intros retry w Hk Hc Hf Ha.
  - destruct retry as [|r]; [lia|].
    unfold replan_point in Ha. cbn [failed_attempts app] in Ha.
    now rewrite (configure_applied self event r w (Hc _) Ha).
  - destruct retry as [|r]; [lia|].
    assert (H0 : replan_error (container self) (replan_point w 0) <> None)
      by (apply Hf; lia).
    unfold replan_point in H0. cbn [failed_attempts app] in H0.
    destruct (replan_error (container self)
                (effects w ++ [AddLayer "kafka-exporter"
                                 (_pebble_layer (kafka_endpoint w)) true]))
      as [error|] eqn:E; [| congruence].
    rewrite (configure_failed self event r w error (Hc _) E).
    set (w1 := after w (unit_status w) (attempt (kafka_endpoint w) ++ [Sleep 5])).
    assert (Hshift : forall j, replan_point w1 j = replan_point w (S j)).
    { intros j. unfold replan_point, w1, after.
      cbn [kafka_endpoint effects failed_attempts]. now rewrite <- !app_assoc. }
    rewrite (IH r w1).
    + unfold w1, after. cbn [kafka_endpoint unit_status effects failed_attempts].
      now rewrite <- !app_assoc.
    + lia.
    + exact Hc.
    + intros j Hj. rewrite Hshift. apply Hf. lia.
    + rewrite Hshift. exact Ha.
Qed.

Lemma layers_of_failed_attempts (endpoint : option string) (k : nat) :
  layers_submitted (failed_attempts endpoint k) = repeat (_pebble_layer endpoint) k.
Proof.
  induction k as [|k IH]; [reflexivity|].
  cbn [failed_attempts]. unfold layers_submitted in *.
  rewrite !flat_map_app, IH. reflexivity.
Qed.

(** C9.  Whenever the endpoint resolves, Pebble is reachable and [replan()]
    succeeds within the retry budget (after [k < 3] failed attempts), the
    configuration-changed handler ends with the unit [Active] with no
    message; every layer it submitted is the layer of the resolved
    endpoint, whose service command is
    "bin/kafka_exporter --kafka.server=<resolved endpoint>" with startup
    "enabled" and whose check is a TCP readiness check on port 9308. *)
Theorem C9_active_with_exporter_layer
    (self : Self) (event : option Event) (w : Charm) (endpoint : string) (k : nat)
    (resolves : fst (_get_kafka_endpoint self event w) = Ok endpoint)
    (reachable : forall t, can_connect (container self) t = true)
    (within_budget : k < 3)
    (failures : forall j, j < k ->
       replan_error (container self) (replan_point (resolved endpoint w) j) <> None)
    (accepted : replan_error (container self) (replan_point (resolved endpoint w) k) = None) :
  let final := snd (_on_config_changed self event w) in
  let layer := _pebble_layer (Some endpoint) in
  fst (_on_config_changed self event w) = Ok tt /\
  unit_status final = ActiveStatus EmptyString /\
  kafka_endpoint final = Some endpoint /\
  layers_submitted (effects final) = layers_submitted (effects w) ++ repeat layer (S k) /\
  layer_services layer =
    [ ("kafka-exporter",
       {| svc_override := "replace";
          svc_summary := "kafka-exporter service";
          svc_command := "bin/kafka_exporter --kafka.server=" ++ endpoint;
          svc_startup := "enabled" |}) ] /\
  layer_checks layer =
    [ ("online",
       {| chk_override := "replace"; chk_level := "ready"; chk_tcp_port := 9308 |}) ].
Proof.
  cbv zeta. apply resolution_ok_unchanged in resolves.
  pose proof (configure_eventually self event k 3 (resolved endpoint w)
                within_budget reachable failures accepted) as Ec.
  destruct (config_changed_resolved self event w endpoint resolves)
    as (s & t & Ec' & Eh & _).
  rewrite Ec in Ec'. injection Ec' as Hs Ht. apply app_inv_head in Ht. subst s t.
  rewrite Eh. cbn [fst snd after unit_status kafka_endpoint effects resolved].
  repeat split.
  unfold layers_submitted. rewrite !flat_map_app.
  fold (layers_submitted (failed_attempts (Some endpoint) k)).
  rewrite layers_of_failed_attempts. cbn.
  rewrite app_nil_r. f_equal. symmetry.
  change (_pebble_layer (Some endpoint) :: repeat (_pebble_layer (Some endpoint)) k)
    with (repeat (_pebble_layer (Some endpoint)) (S k)).
  now rewrite <- repeat_cons.
Qed.

Lemma C9_active_with_exporter_layer_witness :
  let outcome :=
    _on_config_changed
      (unit_with (Some "kafka:9092") None None (steady_container true None))
      (Some ConfigChangedEvent) fresh_charm in
  unit_status (snd outcome) = ActiveStatus EmptyString /\
  layers_submitted (effects (snd outcome)) = [_pebble_layer (Some "kafka:9092")] /\
  map svc_command (map snd (layer_services (_pebble_layer (Some "kafka:9092")))) =
    ["bin/kafka_exporter --kafka.server=kafka:9092"].
Proof.
  cbv zeta.
  destruct (C9_active_with_exporter_layer
              (unit_with (Some "kafka:9092") None None (steady_container true None))
              (Some ConfigChangedEvent) fresh_charm "kafka:9092" 0)
    as (_ & Hs & _ & Hl & Hc & _).
  - reflexivity.
  - intros t. reflexivity.
  - lia.
  - intros j Hj. lia.
  - reflexivity.
  - split; [exact Hs|]. split; [exact Hl|]. rewrite Hc. reflexivity.
Defined.

(** C10.  When the option kafka-endpoint is present but empty (valid log
    level), validation raises nothing and resolution treats the static
    source as absent: the outcome is the relation endpoint when there is
    one, the no-endpoint error otherwise, exactly as with the option
    unset. *)
Theorem C10_empty_static_is_absent
    (self : Self) (event : option Event) (w : Charm)
    (level : valid_log_level self = true)
    (empty : kafka_endpoint_option (config self) = Some EmptyString) :
  let unset := {| config := {| log_level := log_level (config self);
                               kafka_endpoint_option := None;
                               external_hostname := external_hostname (config self) |};
                  kafka_client := kafka_client self;
                  container := container self |} in
  _validate_config self w = (Ok tt, w) /\
  _get_kafka_endpoint self event w =
    match _get_kafka_relation self event with
    | Some relation => (Ok relation, w)
    | None => (Raise (ECharm (CharmError_new no_endpoint_msg)), w)
    end /\
  _get_kafka_endpoint self event w = _get_kafka_endpoint unset event w.
Proof.
  cbv zeta.
  assert (Hs : Py.truthy (kafka_endpoint_option (config self)) = false)
    by now rewrite empty.
  split; [now apply validate_absent|].
  assert (E : _get_kafka_endpoint self event w =
              match _get_kafka_relation self event with
              | Some relation => (Ok relation, w)
              | None => (Raise (ECharm (CharmError_new no_endpoint_msg)), w)
              end).
  { destruct (_get_kafka_relation self event) as [r|] eqn:Er.
    - now apply resolve_relation.
    - now apply resolve_nothing. }
  split; [exact E|]. rewrite E.
  set (unset := {| config := _; kafka_client := _; container := _ |}).
  assert (Er : _get_kafka_relation unset event = _get_kafka_relation self event)
    by reflexivity.
  rewrite <- Er.
  destruct (_get_kafka_relation unset event) as [r|] eqn:Eu; symmetry.
  - now apply resolve_relation.
  - now apply resolve_nothing.
Qed.

Lemma C10_empty_static_is_absent_witness :
  _get_kafka_endpoint
    (unit_with (Some EmptyString) (Some "kafka") (Some "9092") (steady_container true None))
    (Some ConfigChangedEvent) fresh_charm = (Ok "kafka:9092", fresh_charm) /\
  _get_kafka_endpoint
    (unit_with (Some EmptyString) None None (steady_container true None))
    (Some ConfigChangedEvent) fresh_charm =
    (Raise (ECharm (CharmError_new no_endpoint_msg)), fresh_charm).
Proof.
  split.
  - destruct (C10_empty_static_is_absent
                (unit_with (Some EmptyString) (Some "kafka") (Some "9092")
                   (steady_container true None))
                (Some ConfigChangedEvent) fresh_charm) as (_ & H & _).
    + reflexivity.
    + reflexivity.
    + exact H.
  - destruct (C10_empty_static_is_absent
                (unit_with (Some EmptyString) None None (steady_container true None))
                (Some ConfigChangedEvent) fresh_charm) as (_ & H & _).
    + reflexivity.
    + reflexivity.
    + exact H.
Defined.

(** ** Further properties of the charm *)

Lemma after_nil (w : Charm) : after w (unit_status w) [] = w.
Proof. unfold after. rewrite app_nil_r. now destruct w. Qed.

Lemma calls_since_after (w : Charm) (endpoint : option string) (s : StatusBase)
    (t : list Effect) :
  calls_since w {| kafka_endpoint := endpoint; unit_status := s;
                   effects := effects w ++ t |} = t.
Proof.
  unfold calls_since. cbn [effects].
  rewrite skipn_app, skipn_all, Nat.sub_diag. reflexivity.
Qed.

Lemma stop_container_eq (self : Self) (w : Charm) :
  _stop_container self w =
    (Ok tt, after w (unit_status w) (stop_calls self (effects w))).
Proof.
  unfold _stop_container, stop_calls, stop_check_error.
  cbv [check_service_active check_container_ready container_stop]. run.
  change (String.append pebble_service_name " service not configured yet")
    with "kafka-exporter service not configured yet".
  destruct (service_active_error (container self) (effects w)) as [e1|].
  - destruct (String.eqb (message e1) _); cbn; [now rewrite after_nil | reflexivity].
  - destruct (container_ready_error (container self) (effects w)) as [e2|];
      [| reflexivity].
    destruct (String.eqb (message e2) _); cbn; [now rewrite after_nil | reflexivity].
Qed.

(** X3.  [_stop_container] never raises and leaves status and cached
    endpoint alone.  It stops the service exactly once, except when the
    first failing check reports "kafka-exporter service not configured
    yet": then it makes no call.  A failure of either check with any other
    message does not prevent the stop. *)
Theorem X3_stop_container_calls (self : Self) (w : Charm) :
  _stop_container self w =
    (Ok tt, after w (unit_status w) (stop_calls self (effects w))) /\
  (stop_calls self (effects w) = [] \/
   stop_calls self (effects w) = [Stop "kafka-exporter"]) /\
  (stop_calls self (effects w) = [] <->
   exists error,
     stop_check_error self (effects w) = Some error /\
     message error = "kafka-exporter service not configured yet").
Proof.
  split; [apply stop_container_eq|]. unfold stop_calls.
  destruct (stop_check_error self (effects w)) as [e|].
  - destruct (String.eqb_spec (message e) "kafka-exporter service not configured yet")
      as [He|He].
    + split; [now left|]. split; [eauto|reflexivity].
    + split; [now right|]. split; [discriminate|].
      intros (e' & [= <-] & Hm). contradiction.
  - split; [now right|]. split; [discriminate|]. intros (e' & [=] & _).
Qed.

(** X4.  Resolution of the endpoint makes no call on any collaborator and
    never touches the cached endpoint; its result does not depend on the
    state of the charm.  When it succeeds the charm is unchanged; when it
    fails, the failure is a [CharmError] whose status is [Blocked] with the
    error's own message, never a [ChangeError]. *)
Theorem X4_resolution_is_quiet (self : Self) (event : option Event) (w w0 : Charm) :
  let outcome := _get_kafka_endpoint self event w in
  effects (snd outcome) = effects w /\
  kafka_endpoint (snd outcome) = kafka_endpoint w /\
  fst outcome = fst (_get_kafka_endpoint self event w0) /\
  match fst outcome with
  | Ok _ => snd outcome = w
  | Raise e => exists msg,
      e = ECharm {| message := msg; status := BlockedStatus msg |}
  end.
Proof.
  cbv zeta.
  assert (Hind : forall w1 w2,
            fst (_get_kafka_endpoint self event w1) = fst (_get_kafka_endpoint self event w2)).
  { intros w1 w2. unfold _get_kafka_endpoint, _get_kafka_config, _validate_config.
    destruct (Py.str_in _ log_levels); [| reflexivity].
    destruct (kafka_endpoint_option (config self)) as [[|c r]|];
      try (destruct (_get_kafka_relation self event); reflexivity).
    destruct (Nat.eqb _ 2); [| reflexivity].
    destruct (_get_kafka_relation self event); reflexivity. }
  pose proof (Hind w w0) as H0.
  destruct (get_endpoint_cases self event w) as [(e & E) | (msg & w' & E & Hk & He)];
    rewrite E in *; cbn [fst snd] in *; repeat split; auto.
  exists msg. reflexivity.
Qed.

(** The three ways the apply step can end. *)
Lemma configure_outcome (self : Self) (event : option Event) (retry : nat) (w : Charm) :
  exists k,
    (k < retry /\
     _configure_service self event retry w =
       (Ok tt, after w (ActiveStatus EmptyString)
                 (failed_attempts (kafka_endpoint w) k ++ attempt (kafka_endpoint w)))) \/
    (k < retry /\
     _configure_service self event retry w =
       (Ok tt, after w (WaitingStatus "waiting for Pebble API")
                 (failed_attempts (kafka_endpoint w) k ++ [Defer event]))) \/
    (k = retry /\
     _configure_service self event retry w =
       (Ok tt, after w (unit_status w) (failed_attempts (kafka_endpoint w) k))).
Proof.
  revert w. induction retry as [|r IH]; intros w.
  - exists 0. right. right. split; [reflexivity|]. cbn. now rewrite after_nil.
  - destruct (can_connect (container self) (effects w)) eqn:Hc.
    + destruct (replan_error (container self)
                  (effects w ++ [AddLayer "kafka-exporter"
                                   (_pebble_layer (kafka_endpoint w)) true]))
        as [error|] eqn:E.
      * rewrite (configure_failed self event r w error Hc E).
        set (w1 := after w (unit_status w) (attempt (kafka_endpoint w) ++ [Sleep 5])).
        assert (Hw1 : forall s t,
                  after w1 s t =
                  after w s (attempt (kafka_endpoint w) ++ [Sleep 5] ++ t)).
        { intros s t. unfold w1, after. cbn [kafka_endpoint effects].
          now rewrite <- !app_assoc. }
        destruct (IH w1) as (k & [(Hk & Ek) | [(Hk & Ek) | (Hk & Ek)]]);
          exists (S k); rewrite Ek, Hw1; cbn [kafka_endpoint unit_status w1 after failed_attempts].
        -- left. split; [lia|]. now rewrite <- !app_assoc.
        -- right. left. split; [lia|]. now rewrite <- !app_assoc.
        -- right. right. split; [lia|]. reflexivity.
      * exists 0. left. split; [lia|].
        now rewrite (configure_applied self event r w Hc E).
    + exists 0. right. left. split; [lia|].
      now rewrite (configure_unreachable self event r w Hc).
Qed.

Lemma sleeps_of_failed_attempts (endpoint : option string) (k : nat) :
  sleeps (failed_attempts endpoint k) = repeat 5 k.
Proof.
  induction k as [|k IH]; [reflexivity|].
  cbn [failed_attempts]. unfold sleeps in *.
  rewrite !flat_map_app, IH. reflexivity.
Qed.

(** X5.  In every environment the apply step [_configure_service] returns
    normally and ends in one of three ways after [k] failed attempts, each
    followed by a sleep of 5: a submission is accepted ([k < 3], status
    Active); Pebble is found unreachable ([k < 3], the event is deferred as
    the last call, status Waiting); or the budget is used up ([k = 3],
    status unchanged).  It never sleeps more than 15 in total. *)
Theorem X5_apply_step_outcomes (self : Self) (event : option Event) (w : Charm) :
  exists k s t,
    _configure_service self event 3 w = (Ok tt, after w s t) /\
    sleeps t = repeat 5 k /\ list_sum (sleeps t) <= 15 /\
    ((k < 3 /\ s = ActiveStatus EmptyString /\
      t = failed_attempts (kafka_endpoint w) k ++ attempt (kafka_endpoint w)) \/
     (k < 3 /\ s = WaitingStatus "waiting for Pebble API" /\
      t = failed_attempts (kafka_endpoint w) k ++ [Defer event]) \/
     (k = 3 /\ s = unit_status w /\ t = failed_attempts (kafka_endpoint w) 3)).
Proof.
  assert (Hsum : forall k, k <= 3 -> list_sum (repeat 5 k) <= 15).
  { intros k Hk. destruct k as [|[|[|[|k]]]]; cbn; lia. }
  destruct (configure_outcome self event 3 w) as (k & [(Hk & E) | [(Hk & E) | (Hk & E)]]);
    exists k; do 2 eexists; (split; [exact E|]).
  - assert (Hs : sleeps (failed_attempts (kafka_endpoint w) k ++ attempt (kafka_endpoint w))
                 = repeat 5 k).
    { unfold sleeps. rewrite flat_map_app.
      fold (sleeps (failed_attempts (kafka_endpoint w) k)).
      rewrite sleeps_of_failed_attempts. cbn. now rewrite app_nil_r. }
    rewrite Hs. split; [reflexivity|]. split; [apply Hsum; lia|]. auto.
  - assert (Hs : sleeps (failed_attempts (kafka_endpoint w) k ++ [Defer event])
                 = repeat 5 k).
    { unfold sleeps. rewrite flat_map_app.
      fold (sleeps (failed_attempts (kafka_endpoint w) k)).
      rewrite sleeps_of_failed_attempts. cbn. now rewrite app_nil_r. }
    rewrite Hs. split; [reflexivity|]. split; [apply Hsum; lia|]. auto.
  - subst k. rewrite sleeps_of_failed_attempts.
    split; [reflexivity|]. split; [apply Hsum; lia|]. auto 6.
Qed.

(** A resolution that fails alike with and without the event, possibly
    after [_validate_config] has set a status, ends every handler in
    [Blocked] with the message of the error. *)
Lemma all_handlers_blocked_after_status
    (self : Self) (event : option Event) (w : Charm) (msg : string) (s : StatusBase) :
  _get_kafka_endpoint self event w =
    (Raise (ECharm (CharmError_new msg)), with_status s w) ->
  _get_kafka_endpoint self None w =
    (Raise (ECharm (CharmError_new msg)), with_status s w) ->
  forall h, In h (all_handlers self) ->
    exists w',
      h event w = (Ok tt, w') /\
      unit_status w' = BlockedStatus msg /\
      kafka_endpoint w' = kafka_endpoint w /\
      layers_submitted (effects w') = layers_submitted (effects w).
Proof.
  intros E E0 h Hin. unfold all_handlers in Hin. apply in_app_or in Hin.
  assert (Hfin : forall t, t = [] \/ t = [Stop container_name] ->
            layers_submitted (effects w ++ t) = layers_submitted (effects w)).
  { intros t [-> | ->]; unfold layers_submitted; rewrite flat_map_app; cbn;
      now rewrite app_nil_r. }
  destruct Hin as [Hin | [<- | []]].
  - destruct (handlers_report self event w _ _ E h Hin) as (t & Eh & Ht).
    eexists. split; [exact Eh|]. repeat split. now apply Hfin.
  - destruct (kafka_available_reports self event w _ _ E0) as (t & Eh & Ht).
    eexists. split; [exact Eh|]. repeat split. now apply Hfin.
Qed.



(** X2.  A non-empty static endpoint that does not have exactly one colon
    (valid log level) fails validation before the relation is considered:
    with or without relation data, every handler ends with the unit
    [Blocked] with "Wrong kafka-endpoint format: value must be in the format
    <host>:<port>" and submits no layer. *)
Theorem X2_malformed_static_blocks
    (self : Self) (event : option Event) (w : Charm) (s : string)
    (level : valid_log_level self = true)
    (static : kafka_endpoint_option (config self) = Some s)
    (nonempty : s <> EmptyString)
    (malformed : Py.count ":" s <> 1) :
  forall h, In h (all_handlers self) ->
    exists w',
      h event w = (Ok tt, w') /\
      unit_status w' =
        BlockedStatus
          "Wrong kafka-endpoint format: value must be in the format <host>:<port>" /\
      kafka_endpoint w' = kafka_endpoint w /\
      layers_submitted (effects w') = layers_submitted (effects w).
Proof.
  exact (all_handlers_blocked_after_status self event w _ _
           (resolve_malformed self event w s level static nonempty malformed)
           (resolve_malformed self None w s level static nonempty malformed)).
Qed.

Lemma X2_malformed_static_blocks_witness :
  unit_status
    (snd (_on_config_changed
            (unit_with (Some "foobar") (Some "kafka") (Some "9092")
               (steady_container true None))
            (Some ConfigChangedEvent) fresh_charm)) =
  BlockedStatus "Wrong kafka-endpoint format: value must be in the format <host>:<port>".
Proof.
  destruct (X2_malformed_static_blocks
              (unit_with (Some "foobar") (Some "kafka") (Some "9092")
                 (steady_container true None))
              (Some ConfigChangedEvent) fresh_charm "foobar"
              eq_refl eq_refl)
    with (h := _on_config_changed
                 (unit_with (Some "foobar") (Some "kafka") (Some "9092")
                    (steady_container true None)))
    as (w' & E & Hs & _).
  - discriminate.
  - cbn. discriminate.
  - cbn. auto.
  - rewrite E. exact Hs.
Defined.

Lemma stop_calls_cases (self : Self) (t : list Effect) :
  stop_calls self t = [] \/ stop_calls self t = [Stop container_name].
Proof.
  unfold stop_calls. destruct (stop_check_error self t) as [e|]; [| now right].
  destruct (String.eqb (message e) _); auto.
Qed.

Lemma stop_and_report (self : Self) (s : StatusBase) (w : Charm) :
  (_stop_container self ;; set_unit_status s)%charm w =
    (Ok tt, after w s (stop_calls self (effects w))).
Proof. unfold bind. rewrite stop_container_eq. reflexivity. Qed.

Lemma update_status_resolved
    (self : Self) (event : option Event) (w : Charm) (endpoint : string) :
  _get_kafka_endpoint self event w = (Ok endpoint, w) ->
  _on_update_status self event w =
    match update_status_check_error self (effects w) with
    | None => (Ok tt, resolved endpoint (with_status (ActiveStatus EmptyString) w))
    | Some error =>
        (Ok tt, after (resolved endpoint w) (status error) (stop_calls self (effects w)))
    end.
Proof.
  intros E. unfold _on_update_status.
  rewrite (except_bind_ok _ _ _ w w endpoint E).
  unfold update_status_check_error.
  cbv [except_CharmError bind set_kafka_endpoint check_container_ready
       check_service_active ask raise ret set_unit_status].
  cbn [kafka_endpoint unit_status effects].
  destruct (container_ready_error (container self) (effects w)) as [e1|].
  - rewrite stop_container_eq. reflexivity.
  - cbn. destruct (service_active_error (container self) (effects w)) as [e2|].
    + rewrite stop_container_eq. reflexivity.
    + reflexivity.
Qed.

(** X6.  When the endpoint resolves, [_on_update_status] returns normally
    and caches the endpoint.  If the container check and then the service
    check both pass it sets the status to Active and makes no call at all;
    otherwise it runs [_stop_container] and reports the status of the first
    failing check.  It never submits a layer, replans, sleeps or defers. *)
Theorem X6_update_status_resolved
    (self : Self) (event : option Event) (w : Charm) (endpoint : string)
    (resolves : fst (_get_kafka_endpoint self event w) = Ok endpoint) :
  let final := snd (_on_update_status self event w) in
  fst (_on_update_status self event w) = Ok tt /\
  kafka_endpoint final = Some endpoint /\
  match update_status_check_error self (effects w) with
  | None => unit_status final = ActiveStatus EmptyString /\ effects final = effects w
  | Some error =>
      unit_status final = status error /\
      effects final = effects w ++ stop_calls self (effects w)
  end /\
  layers_submitted (effects final) = layers_submitted (effects w) /\
  sleeps (effects final) = sleeps (effects w) /\
  deferred (effects final) = deferred (effects w).
Proof.
  cbv zeta. apply resolution_ok_unchanged in resolves.
  rewrite (update_status_resolved self event w endpoint resolves).
  destruct (update_status_check_error self (effects w)) as [e|];
    cbn [fst snd after resolved with_status kafka_endpoint unit_status effects].
  - repeat split;
      unfold layers_submitted, sleeps, deferred; rewrite flat_map_app;
      destruct (stop_calls_cases self (effects w)) as [-> | ->]; cbn;
      now rewrite app_nil_r.
  - repeat split.
Qed.

Lemma X6_update_status_resolved_witness :
  _on_update_status
    (unit_with (Some "kafka:9092") None None (steady_container true None))
    (Some UpdateStatusEvent) fresh_charm =
  (Ok tt, {| kafka_endpoint := Some "kafka:9092";
             unit_status := ActiveStatus EmptyString;
             effects := [] |}).
Proof.
  destruct (X6_update_status_resolved
              (unit_with (Some "kafka:9092") None None (steady_container true None))
              (Some UpdateStatusEvent) fresh_charm "kafka:9092" eq_refl)
    as (H1 & H2 & H3 & _).
  cbn in H3. destruct H3 as (H3 & H4).
  destruct (_on_update_status _ _ _) as [o c]. cbn in *. subst o.
  destruct c as [ke us ef]. cbn in *. now subst.
Defined.

Lemma pebble_ready_eq
    (self : Self) (event : option Event) (w : Charm) (endpoint : string)
    (resolves : _get_kafka_endpoint self event w = (Ok endpoint, w)) :
  _on_kafka_exporter_pebble_ready self event w =
    match replan_error (container self)
            (effects w ++ [AddLayer "kafka-exporter" (_pebble_layer (Some endpoint)) true])
    with
    | None =>
        (Ok tt, after (resolved endpoint w) (ActiveStatus EmptyString)
                  (attempt (Some endpoint)))
    | Some error =>
        (Raise (EChange error),
         after (resolved endpoint w) (unit_status w) (attempt (Some endpoint)))
    end.
Proof.
  unfold _on_kafka_exporter_pebble_ready.
  rewrite (except_bind_ok _ _ _ w w endpoint resolves).
  cbv [except_CharmError bind set_kafka_endpoint pebble_layer get_kafka_endpoint ret
       container_add_layer container_replan emit ask raise set_unit_status].
  cbn [kafka_endpoint unit_status effects].
  destruct (replan_error (container self) _) as [error|];
    unfold after, attempt, resolved; cbn [kafka_endpoint unit_status effects];
    now rewrite <- app_assoc.
Qed.

(** X8.  On a pebble-ready event with a resolved endpoint the handler
    caches the endpoint, submits the layer and replans without asking
    whether Pebble can be reached and without any retry: if [replan()]
    succeeds the status becomes Active; if it fails, the [ChangeError]
    leaves the handler unhandled, after the layer was submitted and with
    the status untouched. *)
Theorem X8_pebble_ready_resolved
    (self : Self) (event : option Event) (w : Charm) (endpoint : string)
    (resolves : fst (_get_kafka_endpoint self event w) = Ok endpoint) :
  _on_kafka_exporter_pebble_ready self event w =
    match replan_error (container self)
            (effects w ++ [AddLayer "kafka-exporter" (_pebble_layer (Some endpoint)) true])
    with
    | None =>
        (Ok tt, after (resolved endpoint w) (ActiveStatus EmptyString)
                  (attempt (Some endpoint)))
    | Some error =>
        (Raise (EChange error),
         after (resolved endpoint w) (unit_status w) (attempt (Some endpoint)))
    end.
Proof.
  apply pebble_ready_eq. now apply resolution_ok_unchanged.
Qed.

Lemma X8_pebble_ready_resolved_witness :
  _on_kafka_exporter_pebble_ready
    (unit_with (Some "kafka:9092") None None (steady_container false None))
    (Some PebbleReadyEvent) fresh_charm =
  (Ok tt, {| kafka_endpoint := Some "kafka:9092";
             unit_status := ActiveStatus EmptyString;
             effects := attempt (Some "kafka:9092") |}).
Proof.
  exact (X8_pebble_ready_resolved
           (unit_with (Some "kafka:9092") None None (steady_container false None))
           (Some PebbleReadyEvent) fresh_charm "kafka:9092" eq_refl).
Defined.

(** *** What every handler run looks like *)

Lemma layers_of_stop_calls (self : Self) (t : list Effect) :
  layers_submitted (stop_calls self t) = [].
Proof. destruct (stop_calls_cases self t) as [-> | ->]; reflexivity. Qed.

Lemma configure_layers (self : Self) (event : option Event) (retry : nat) (w : Charm) :
  exists s t,
    _configure_service self event retry w = (Ok tt, after w s t) /\
    forall l, In l (layers_submitted t) -> l = _pebble_layer (kafka_endpoint w).
Proof.
  destruct (configure_outcome self event retry w)
    as (k & [(_ & E) | [(_ & E) | (_ & E)]]);
    do 2 eexists; (split; [exact E|]); intros l Hl;
    unfold layers_submitted in Hl; try rewrite flat_map_app in Hl;
    fold (layers_submitted (failed_attempts (kafka_endpoint w) k)) in Hl;
    rewrite layers_of_failed_attempts in Hl.
  - apply in_app_or in Hl. destruct Hl as [Hl | Hl].
    + now apply repeat_spec in Hl.
    + cbn in Hl. destruct Hl as [<- | []]. reflexivity.
  - apply in_app_or in Hl. destruct Hl as [Hl | []].
    now apply repeat_spec in Hl.
  - now apply repeat_spec in Hl.
Qed.

Lemma update_status_return (self : Self) (event : option Event) (w : Charm) :
  exists ke s t,
    _on_update_status self event w =
      (Ok tt, {| kafka_endpoint := ke; unit_status := s; effects := effects w ++ t |}) /\
    layers_submitted t = [].
Proof.
  destruct (get_endpoint_cases self event w) as [(e & E) | (msg & w' & E & Hk & He)].
  - rewrite (update_status_resolved self event w e E).
    destruct (update_status_check_error self (effects w)) as [err|].
    + do 3 eexists. split; [reflexivity|]. apply layers_of_stop_calls.
    + exists (Some e), (ActiveStatus EmptyString), [].
      split; [| reflexivity]. unfold resolved, with_status. cbn.
      now rewrite app_nil_r.
  - assert (Hin : In (_on_update_status self) (event_handlers self)) by (cbn; auto).
    destruct (handlers_report self event w w' _ E _ Hin) as (t & Eh & Ht).
    rewrite Eh. unfold after. rewrite He. do 3 eexists. split; [reflexivity|].
    destruct Ht as [-> | ->]; reflexivity.
Qed.

(** Every handler but pebble-ready returns, and whatever layers a run
    submits are the layer of the endpoint resolved in that run. *)
Lemma handlers_return (self : Self) (event : option Event) (w : Charm) :
  forall h,
    In h [_on_config_changed self; _on_update_status self; _on_db_relation_broken self] ->
    exists ke s t,
      h event w =
        (Ok tt, {| kafka_endpoint := ke; unit_status := s; effects := effects w ++ t |}) /\
      forall l, In l (layers_submitted t) ->
        exists endpoint,
          fst (_get_kafka_endpoint self event w) = Ok endpoint /\
          l = _pebble_layer (Some endpoint).
Proof.
  intros h Hin.
  destruct (get_endpoint_cases self event w) as [(e & E) | (msg & w' & E & Hk & He)].
  - cbn in Hin. destruct Hin as [<- | [<- | [<- | []]]].
    + destruct (configure_layers self event 3 (resolved e w)) as (s & t & Ec & Hl).
      destruct (config_changed_resolved self event w e E) as (s' & t' & Ec' & Eh & _).
      rewrite Ec in Ec'. injection Ec' as Hs Ht. apply app_inv_head in Ht. subst s' t'.
      rewrite Eh. do 3 eexists. split; [reflexivity|].
      intros l Hin. unfold layers_submitted in Hin. rewrite flat_map_app in Hin.
      cbn in Hin. rewrite app_nil_r in Hin.
      exists e. rewrite E. split; [reflexivity|]. now apply Hl.
    + destruct (update_status_return self event w) as (ke & s & t & Eh & Hl).
      rewrite Eh. do 3 eexists. split; [reflexivity|]. rewrite Hl. intros l [].
    + destruct (configure_layers self event 3 (resolved e w)) as (s & t & Ec & Hl).
      rewrite (relation_broken_resolved self event w e E), Ec.
      do 3 eexists. split; [reflexivity|].
      intros l Hin. exists e. rewrite E. split; [reflexivity|]. now apply Hl.
  - assert (Hin' : In h (event_handlers self)) by (cbn in *; tauto).
    destruct (handlers_report self event w w' _ E _ Hin') as (t & Eh & Ht).
    rewrite Eh. unfold after. rewrite He. do 3 eexists. split; [reflexivity|].
    destruct Ht as [-> | ->]; intros l [].
Qed.

Lemma kafka_available_return (self : Self) (event : option Event) (w : Charm) :
  exists ke s t,
    _on_kafka_available self event w =
      (Ok tt, {| kafka_endpoint := ke; unit_status := s; effects := effects w ++ t |}) /\
    forall l, In l (layers_submitted t) ->
      exists endpoint,
        fst (_get_kafka_endpoint self None w) = Ok endpoint /\
        l = _pebble_layer (Some endpoint).
Proof.
  destruct (get_endpoint_cases self None w) as [(e & E) | (msg & w' & E & Hk & He)].
  - unfold _on_kafka_available. rewrite (except_bind_ok _ _ _ w w e E).
    cbv [except_CharmError bind set_kafka_endpoint check_container_ready ask raise ret].
    cbn [kafka_endpoint unit_status effects].
    change {| kafka_endpoint := Some e; unit_status := unit_status w;
              effects := effects w |} with (resolved e w).
    destruct (container_ready_error (container self) (effects w)) as [e1|].
    + rewrite stop_container_eq. cbv [set_unit_status]. cbn.
      do 3 eexists. split; [reflexivity|].
      rewrite layers_of_stop_calls. intros l [].
    + destruct (configure_layers self event 3 (resolved e w)) as (s & t & Ec & Hl).
      rewrite Ec.
      destruct (update_status_return self None (after (resolved e w) s t))
        as (ke & s' & t' & Eu & Hl').
      rewrite Eu. cbn [after effects resolved]. rewrite <- app_assoc.
      do 3 eexists. split; [reflexivity|].
      intros l Hin. unfold layers_submitted in Hin. rewrite flat_map_app in Hin.
      fold (layers_submitted t') in Hin. rewrite Hl', app_nil_r in Hin.
      exists e. rewrite E. split; [reflexivity|]. now apply Hl.
  - destruct (kafka_available_reports self event w w' _ E) as (t & Eh & Ht).
    rewrite Eh. unfold after. rewrite He. do 3 eexists. split; [reflexivity|].
    destruct Ht as [-> | ->]; intros l [].
Qed.

(** X7.  In every environment each of [_on_config_changed],
    [_on_update_status], [_on_db_relation_broken] and [_on_kafka_available]
    returns normally: neither a [CharmError] nor a [ChangeError] of
    [replan()] leaves them, and the calls made before the event are kept as
    a prefix of the trace. *)
Theorem X7_handlers_never_raise (self : Self) (event : option Event) (w : Charm) :
  forall h,
    In h [_on_config_changed self; _on_update_status self;
          _on_db_relation_broken self; _on_kafka_available self] ->
    fst (h event w) = Ok tt /\
    effects (snd (h event w)) = effects w ++ calls_since w (snd (h event w)).
Proof.
  intros h Hin.
  assert (H : exists ke s t,
             h event w = (Ok tt, {| kafka_endpoint := ke; unit_status := s;
                                    effects := effects w ++ t |})).
  { cbn in Hin. destruct Hin as [<- | [<- | [<- | [<- | []]]]].
    - destruct (handlers_return self event w (_on_config_changed self))
        as (ke & s & t & E & _); [cbn; auto | eauto].
    - destruct (handlers_return self event w (_on_update_status self))
        as (ke & s & t & E & _); [cbn; auto | eauto].
    - destruct (handlers_return self event w (_on_db_relation_broken self))
        as (ke & s & t & E & _); [cbn; auto | eauto].
    - destruct (kafka_available_return self event w) as (ke & s & t & E & _). eauto. }
  destruct H as (ke & s & t & E). rewrite E. cbn [fst snd].
  now rewrite calls_since_after.
Qed.

Lemma X7_handlers_never_raise_witness :
  fst (_on_config_changed
         (unit_with (Some "kafka:9092") None None
            (steady_container true (Some "cannot perform the following tasks")))
         (Some ConfigChangedEvent) fresh_charm) = Ok tt.
Proof.
  destruct (X7_handlers_never_raise
              (unit_with (Some "kafka:9092") None None
                 (steady_container true (Some "cannot perform the following tasks")))
              (Some ConfigChangedEvent) fresh_charm
              (_on_config_changed
                 (unit_with (Some "kafka:9092") None None
                    (steady_container true (Some "cannot perform the following tasks")))))
    as (H & _).
  - cbn. auto.
  - exact H.
Defined.

(** X11.  Whatever the environment and the endpoint cached before, every
    layer submitted while a handler runs is the layer of the endpoint that
    this very run resolved; in particular a run whose resolution fails
    submits no layer.  ([_on_kafka_available] resolves without the event.) *)
Theorem X11_submitted_layers_are_fresh (self : Self) (event : option Event) (w : Charm) :
  (forall h, In h (event_handlers self) ->
     forall l, In l (layers_submitted (calls_since w (snd (h event w)))) ->
       exists endpoint,
         fst (_get_kafka_endpoint self event w) = Ok endpoint /\
         l = _pebble_layer (Some endpoint)) /\
  (forall l,
     In l (layers_submitted (calls_since w (snd (_on_kafka_available self event w)))) ->
     exists endpoint,
       fst (_get_kafka_endpoint self None w) = Ok endpoint /\
       l = _pebble_layer (Some endpoint)).
Proof.
  split.
  - intros h Hin. cbn in Hin. destruct Hin as [<- | Hin].
    + destruct (get_endpoint_cases self event w) as [(e & E) | (msg & w' & E & Hk & He)].
      * rewrite (pebble_ready_eq self event w e E). rewrite E. cbn [fst].
        destruct (replan_error (container self) _); cbn [snd]; unfold after, resolved;
          cbn [kafka_endpoint unit_status effects];
          rewrite calls_since_after; cbn; intros l [<- | []]; eauto.
      * assert (Hin : In (_on_kafka_exporter_pebble_ready self) (event_handlers self))
          by (cbn; auto).
        destruct (handlers_report self event w w' _ E _ Hin) as (t & Eh & Ht).
        rewrite Eh. cbn [snd]. unfold after. rewrite He, calls_since_after.
        destruct Ht as [-> | ->]; intros l [].
    + destruct (handlers_return self event w h Hin) as (ke & s & t & E & Hl).
      rewrite E. cbn [snd]. now rewrite calls_since_after.
  - destruct (kafka_available_return self event w) as (ke & s & t & E & Hl).
    rewrite E. cbn [snd]. now rewrite calls_since_after.
Qed.

(** X9.  With the static endpoint absent and both [host] and [port]
    published on the relation, resolution yields "<host>:<port>" as it is:
    the relation endpoint goes through no format check, whatever the two
    values contain.  With Pebble reachable and [replan()] accepted, the
    configuration-changed handler then submits the layer for it and ends
    Active. *)
Theorem X9_relation_endpoint_is_used
    (self : Self) (event : option Event) (w : Charm) (h p : string)
    (level : valid_log_level self = true)
    (no_static : Py.truthy (kafka_endpoint_option (config self)) = false)
    (relation_host : host (kafka_client self) = Some h)
    (relation_port : port (kafka_client self) = Some p)
    (host_set : h <> EmptyString)
    (port_set : p <> EmptyString)
    (not_broken : type_name event <> "RelationBrokenEvent")
    (reachable : can_connect (container self) (effects w) = true)
    (accepted :
       replan_error (container self)
         (effects w ++ [AddLayer "kafka-exporter"
                          (_pebble_layer (Some (h ++ ":" ++ p)%string)) true]) = None) :
  let endpoint := (h ++ ":" ++ p)%string in
  _get_kafka_endpoint self event w = (Ok endpoint, w) /\
  _on_config_changed self event w =
    (Ok tt, after (resolved endpoint w) (ActiveStatus EmptyString)
              (attempt (Some endpoint)
                 ++ [IngressUpdateConfig (external_hostname (config self))])).
Proof.
  cbv zeta.
  assert (Er : _get_kafka_relation self event = Some (h ++ ":" ++ p)%string).
  { unfold _get_kafka_relation. apply String.eqb_neq in not_broken.
    rewrite not_broken, relation_host, relation_port.
    destruct h; [congruence|]. destruct p; [congruence|]. reflexivity. }
  pose proof (resolve_relation self event w _ level no_static Er) as E.
  split; [exact E|].
  destruct (config_changed_resolved self event w _ E) as (s & t & Ec & Eh & _).
  rewrite (configure_applied self event 2 (resolved (h ++ ":" ++ p) w) reachable accepted)
    in Ec.
  injection Ec as Hs Ht. apply app_inv_head in Ht. subst s t. exact Eh.
Qed.

Lemma X9_relation_endpoint_is_used_witness :
  _on_config_changed
    (unit_with None (Some "kafka") (Some "9092") (steady_container true None))
    (Some ConfigChangedEvent) fresh_charm =
  (Ok tt, {| kafka_endpoint := Some "kafka:9092";
             unit_status := ActiveStatus EmptyString;
             effects := attempt (Some "kafka:9092") ++ [IngressUpdateConfig None] |}).
Proof.
  destruct (X9_relation_endpoint_is_used
              (unit_with None (Some "kafka") (Some "9092") (steady_container true None))
              (Some ConfigChangedEvent) fresh_charm "kafka" "9092"
              eq_refl eq_refl eq_refl eq_refl) as (_ & H).
  - discriminate.
  - discriminate.
  - discriminate.
  - reflexivity.
  - reflexivity.
  - exact H.
Defined.

(** X10.  On a relation-broken event a unit that has a well-formed static
    endpoint falls back to it, whatever the relation data still holds: the
    conflict with the relation is not raised, and with Pebble reachable and
    [replan()] accepted the handler submits the layer of the static endpoint
    and ends Active. *)
Theorem X10_relation_broken_falls_back_to_static
    (self : Self) (w : Charm) (s : string)
    (level : valid_log_level self = true)
    (static : kafka_endpoint_option (config self) = Some s)
    (well_formed : Py.count ":" s = 1)
    (reachable : can_connect (container self) (effects w) = true)
    (accepted :
       replan_error (container self)
         (effects w ++ [AddLayer "kafka-exporter" (_pebble_layer (Some s)) true]) = None) :
  _get_kafka_endpoint self (Some RelationBrokenEvent) w = (Ok s, w) /\
  _on_db_relation_broken self (Some RelationBrokenEvent) w =
    (Ok tt, after (resolved s w) (ActiveStatus EmptyString) (attempt (Some s))).
Proof.
  pose proof (resolve_static self (Some RelationBrokenEvent) w s level static
                well_formed (relation_broken_absent self)) as E.
  split; [exact E|].
  rewrite (relation_broken_resolved self _ w s E).
  exact (configure_applied self _ 2 (resolved s w) reachable accepted).
Qed.

Lemma X10_relation_broken_falls_back_to_static_witness :
  let self := unit_with (Some "kafka:9092") (Some "kafka") (Some "9092")
                (steady_container true None) in
  unit_status (snd (_on_config_changed self (Some ConfigChangedEvent) fresh_charm)) =
    BlockedStatus conflicting_sources_msg /\
  _on_db_relation_broken self (Some RelationBrokenEvent) fresh_charm =
    (Ok tt, {| kafka_endpoint := Some "kafka:9092";
               unit_status := ActiveStatus EmptyString;
               effects := attempt (Some "kafka:9092") |}).
Proof.
  cbv zeta. split; [reflexivity|].
  destruct (X10_relation_broken_falls_back_to_static
              (unit_with (Some "kafka:9092") (Some "kafka") (Some "9092")
                 (steady_container true None))
              fresh_charm "kafka:9092" eq_refl eq_refl eq_refl eq_refl eq_refl)
    as (_ & H).
  exact H.
Defined.

(** X12.  The log level is compared without regard to letter case: two
    units that differ only in their log level, with the same upper-casing,
    pass or fail the log-level check together and resolve the endpoint to
    the very same outcome. *)
Theorem X12_log_level_ignores_case
    (self : Self) (event : option Event) (w : Charm) (level1 level2 : string)
    (same : Py.upper level1 = Py.upper level2) :
  valid_log_level (with_log_level level1 self) =
    valid_log_level (with_log_level level2 self) /\
  _validate_config (with_log_level level1 self) w =
    _validate_config (with_log_level level2 self) w /\
  _get_kafka_endpoint (with_log_level level1 self) event w =
    _get_kafka_endpoint (with_log_level level2 self) event w.
Proof.
  unfold valid_log_level, _get_kafka_endpoint, _get_kafka_config, _validate_config,
    _get_kafka_relation.
  cbn [with_log_level config log_level kafka_endpoint_option kafka_client].
  rewrite same. repeat split.
Qed.

Lemma X12_log_level_ignores_case_witness :
  _get_kafka_endpoint
    (with_log_level "Info" (unit_with (Some "kafka:9092") None None
                              (steady_container true None)))
    (Some ConfigChangedEvent) fresh_charm =
  _get_kafka_endpoint
    (with_log_level "INFO" (unit_with (Some "kafka:9092") None None
                              (steady_container true None)))
    (Some ConfigChangedEvent) fresh_charm.
Proof.
  destruct (X12_log_level_ignores_case
              (unit_with (Some "kafka:9092") None None (steady_container true None))
              (Some ConfigChangedEvent) fresh_charm "Info" "INFO" eq_refl)
    as (_ & _ & H).
  exact H.
Defined.

(** X13.  [_on_kafka_available] resolves the endpoint without the event.
    With a resolved endpoint, if [check_container_ready] fails the handler
    stops the workload and reports the status of that error without running
    the apply step; otherwise it runs the apply step and then the whole
    update-status handler, so the status it leaves is the one of the
    update-status pass, not the one the apply step set. *)
Theorem X13_kafka_available_composes
    (self : Self) (event : option Event) (w : Charm) (endpoint : string)
    (resolves : fst (_get_kafka_endpoint self None w) = Ok endpoint) :
  _on_kafka_available self event w =
    match container_ready_error (container self) (effects w) with
    | Some error =>
        (Ok tt, after (resolved endpoint w) (status error) (stop_calls self (effects w)))
    | None =>
        _on_update_status self None
          (snd (_configure_service self event 3 (resolved endpoint w)))
    end.
Proof.
  apply resolution_ok_unchanged in resolves.
  unfold _on_kafka_available. rewrite (except_bind_ok _ _ _ w w endpoint resolves).
  cbv [except_CharmError bind set_kafka_endpoint check_container_ready ask raise ret].
  cbn [kafka_endpoint unit_status effects].
  change {| kafka_endpoint := Some endpoint; unit_status := unit_status w;
            effects := effects w |} with (resolved endpoint w).
  destruct (container_ready_error (container self) (effects w)) as [e1|].
  - rewrite stop_container_eq. reflexivity.
  - destruct (configure_layers self event 3 (resolved endpoint w)) as (s & t & Ec & _).
    rewrite Ec. cbn [snd].
    destruct (update_status_return self None (after (resolved endpoint w) s t))
      as (ke & s' & t' & Eu & _).
    rewrite Eu. reflexivity.
Qed.

Lemma X13_kafka_available_composes_witness :
  _on_kafka_available
    (unit_with None (Some "kafka") (Some "9092") (flaky_container 2))
    (Some KafkaAvailableEvent) fresh_charm =
  (Ok tt, {| kafka_endpoint := Some "kafka:9092";
             unit_status := ActiveStatus EmptyString;
             effects := attempt (Some "kafka:9092") ++ [Sleep 5]
                          ++ attempt (Some "kafka:9092") |}).
Proof.
  rewrite (X13_kafka_available_composes
             (unit_with None (Some "kafka") (Some "9092") (flaky_container 2))
             (Some KafkaAvailableEvent) fresh_charm "kafka:9092" eq_refl).
  reflexivity.
Defined.

(** X14.  A relation that has published only one of [host] and [port], or
    an empty value for either, counts as no relation at all: a unit with a
    well-formed static endpoint then resolves to the static endpoint on
    every event, without the conflict of sources. *)
Theorem X14_incomplete_relation_is_absent
    (self : Self) (event : option Event) (w : Charm) (s : string)
    (level : valid_log_level self = true)
    (static : kafka_endpoint_option (config self) = Some s)
    (well_formed : Py.count ":" s = 1)
    (incomplete : Py.truthy (host (kafka_client self)) = false \/
                  Py.truthy (port (kafka_client self)) = false) :
  _get_kafka_relation self event = None /\
  _get_kafka_endpoint self event w = (Ok s, w).
Proof.
  assert (Hr : _get_kafka_relation self event = None).
  { apply relation_absent. unfold relation_data_present.
    destruct incomplete as [-> | ->]; [reflexivity | apply andb_false_r]. }
  split; [exact Hr|]. now apply resolve_static.
Qed.

Lemma X14_incomplete_relation_is_absent_witness :
  _get_kafka_endpoint
    (unit_with (Some "kafka:9092") (Some "kafka") None (steady_container true None))
    (Some ConfigChangedEvent) fresh_charm = (Ok "kafka:9092", fresh_charm).
Proof.
  destruct (X14_incomplete_relation_is_absent
              (unit_with (Some "kafka:9092") (Some "kafka") None
                 (steady_container true None))
              (Some ConfigChangedEvent) fresh_charm "kafka:9092"
              eq_refl eq_refl eq_refl) as (_ & H).
  - right. reflexivity.
  - exact H.
Defined.
